(** * Lyra's octagon abstract domain: a shallow embedding of
    [abstract_domains/numerical/octagon.py]

    The Python module is embedded function by function.  Methods mutate
    [self] in place and may raise, so a method is a computation [M S A]
    that takes the state of the receiver, and returns an outcome (a value or
    the exception raised) together with the state the receiver is left in.

    Three modules the file imports are not part of the sources at hand:
    [abstract_domains.numerical.dbm] (the matrix), [core.expressions] (the
    expression classes) and [abstract_domains.numerical.interval].  The
    matrix is modelled from its description in the specification; what the
    other two do, and the matrix's closure, enter as Section variables so
    that every statement holds whatever they do. *)

From Stdlib Require Import QArith Qcanon.
From stdpp Require Import base numbers list strings gmap.

Local Open Scope nat_scope.

(** ** Exceptions and the state-and-exception monad *)

(** The built-in exceptions the module can end in. *)
Inductive exn := ValueError | TypeError | KeyError | IndexError | NotImplementedError.

Inductive res (A : Type) : Type :=
| Ok (a : A)
| Raise (e : exn).
Arguments Ok {A} a.
Arguments Raise {A} e.

#[global] Instance exn_eq_dec : EqDecision exn.
Proof. solve_decision. Defined.

(** A method body: run on the receiver's state, it yields an outcome and the
    state it leaves behind.  An exception keeps the mutations made so far. *)
Definition M (S A : Type) : Type := S -> res A * S.

Definition ret {S A} (a : A) : M S A := fun s => (Ok a, s).

Definition raise {S A} (e : exn) : M S A := fun s => (Raise e, s).

Definition bind {S A B} (m : M S A) (k : A -> M S B) : M S B :=
  fun s => match m s with
           | (Ok a, s') => k a s'
           | (Raise e, s') => (Raise e, s')
           end.

(** An expression that cannot mutate the receiver. *)
Definition lift {S A} (r : res A) : M S A := fun s => (r, s).

(** [try: body except ValueError: handler]. *)
Definition try_except_ValueError {S A} (body : M S A) (handler : M S A) : M S A :=
  fun s => match body s with
           | (Raise ValueError, s') => handler s'
           | other => other
           end.

(** [for x in xs: body x]. *)
Fixpoint for_each {S X} (xs : list X) (body : X -> M S unit) : M S unit :=
  match xs with
  | [] => ret tt
  | x :: rest => bind (body x) (fun _ => for_each rest body)
  end.

Declare Scope py_scope.
Delimit Scope py_scope with py.
Notation "x <- c1 ;; c2" := (bind c1 (fun x => c2))
  (at level 100, c1 at next level, right associativity) : py_scope.
Notation "c1 ;; c2" := (bind c1 (fun _ => c2))
  (at level 100, right associativity) : py_scope.

(** The pure fragment: binding on outcomes alone. *)
Definition res_bind {A B} (r : res A) (k : A -> res B) : res B :=
  match r with
  | Ok a => k a
  | Raise e => Raise e
  end.

(** ** Numbers

    A bound is a Python number: an [int], or a [float] (the module writes
    [math.inf], negates it, and halves with [/]).  Finite values are exact
    rationals. *)
Inductive num :=
| Fin (q : Qc)
| PInf
| NInf
| NaN.

#[global] Instance num_eq_dec : EqDecision num.
Proof. solve_decision. Defined.

Definition inf : num := PInf.

Definition int (z : Z) : num := Fin (Qc_of_Z z).

(** [x <= y]. *)
Definition num_le (x y : num) : bool :=
  match x, y with
  | NaN, _ | _, NaN => false
  | NInf, _ => true
  | _, PInf => true
  | Fin a, Fin b => bool_decide (a <= b)%Qc
  | _, _ => false
  end.

(** [x >= y]. *)
Definition num_ge (x y : num) : bool := num_le y x.

(** [x + y]. *)
Definition num_add (x y : num) : num :=
  match x, y with
  | NaN, _ | _, NaN => NaN
  | PInf, NInf | NInf, PInf => NaN
  | PInf, _ | _, PInf => PInf
  | NInf, _ | _, NInf => NInf
  | Fin a, Fin b => Fin (a + b)%Qc
  end.

(** [k * x] for a non-zero integer literal [k]. *)
Definition num_scale (k : Z) (x : num) : num :=
  match x with
  | Fin a => Fin (Qc_of_Z k * a)%Qc
  | PInf => if (0 <? k)%Z then PInf else NInf
  | NInf => if (0 <? k)%Z then NInf else PInf
  | NaN => NaN
  end.

(** [-x]. *)
Definition num_neg (x : num) : num := num_scale (-1) x.

(** [x / 2]. *)
Definition num_half (x : num) : num :=
  match x with
  | Fin a => Fin (a / Qc_of_Z 2)%Qc
  | other => other
  end.

(** [min(x, y)] and [max(x, y)] as the built-ins compute them: the second
    argument wins only when it compares strictly below (above) the first. *)
Definition num_min (x y : num) : num := if num_le x y then x else if num_le y x then y else x.
Definition num_max (x y : num) : num := if num_le y x then x else if num_le x y then y else x.

(** [math.isinf(x)]. *)
Definition isinf (x : num) : bool :=
  match x with
  | PInf | NInf => true
  | _ => false
  end.

(** [x[i]] on a number: [int] and [float] are not subscriptable. *)
Definition num_subscript (x : num) (i : nat) : res num := Raise TypeError.

(** ** The difference-bound matrix *)

Module CDBM.

(** Modelled from the spec: the class [IntegerCDBM] of
    [abstract_domains.numerical.dbm] is not among the sources.  Following
    section 4.1, a matrix is a square of [size] rows and columns of bounds,
    kept here row by row in one list; [get] and [set] address it by
    [(row, col)], and [keys], [values] and [items] enumerate the positions
    and their bounds in that order.  An index outside [0, size) is outside
    the contract; the model raises [IndexError] there. *)
Record t := mk { size : nat; cells : list num }.

(** Modelled from the spec: a matrix holds one bound per position. *)
Definition wf (d : t) : Prop := length (cells d) = size d * size d.

Definition in_range (d : t) (i j : nat) : bool := (i <? size d) && (j <? size d).

(** Modelled from the spec: [d[i, j]]. *)
Definition get (d : t) (i j : nat) : res num :=
  if in_range d i j then
    match cells d !! (i * size d + j) with
    | Some b => Ok b
    | None => Raise IndexError
    end
  else Raise IndexError.

(** Modelled from the spec: [d[i, j] = b], in place. *)
Definition set (i j : nat) (b : num) : M t unit :=
  fun d => if in_range d i j
           then (Ok tt, mk (size d) (<[i * size d + j := b]> (cells d)))
           else (Raise IndexError, d).

(** Modelled from the spec: [keys()], every position [(i, j)], row by row. *)
Definition keys (d : t) : list (nat * nat) :=
  (fun idx => (idx / size d, idx mod size d)) <$> seq 0 (size d * size d).

(** Modelled from the spec: [values()], the bounds in the order of [keys]. *)
Definition values (d : t) : list num := cells d.

(** Modelled from the spec: [items()], each position with its bound. *)
Definition items (d : t) : list ((nat * nat) * num) := zip (keys d) (values d).

(** Collects the outcomes of [f] over a list, stopping at the first exception. *)
Fixpoint collect {X Y} (f : X -> res Y) (xs : list X) : res (list Y) :=
  match xs with
  | [] => Ok []
  | x :: rest => res_bind (f x) (fun y => res_bind (collect f rest) (fun ys => Ok (y :: ys)))
  end.

(** Modelled from the spec: [zip(other, f)], "entrywise application of a
    binary function producing a new bound per position".  Each position of
    the receiver is combined with the same position of [other]; the receiver
    is overwritten once every new bound is known.  The description states no
    dimension check, and the model has none: a position [other] lacks is an
    [IndexError], a larger [other] is read where the receiver has entries. *)
Definition zip_with_dbm (other : t) (f : num -> num -> num) : M t unit :=
  fun d =>
    match collect (fun '(i, j) => res_bind (get d i j) (fun a =>
                                  res_bind (get other i j) (fun b => Ok (f a b)))) (keys d) with
    | Ok cs => (Ok tt, mk (size d) cs)
    | Raise e => (Raise e, d)
    end.

(** Modelled from the spec: [intersection(other)], the entrywise minimum. *)
Definition intersection (other : t) : M t unit := zip_with_dbm other num_min.

(** Modelled from the spec: [union(other)], the entrywise maximum. *)
Definition union (other : t) : M t unit := zip_with_dbm other num_max.

(** Modelled from the spec: the constructor [IntegerCDBM(size)].  The initial
    bounds are not described; the model starts unconstrained. *)
Definition init (n : nat) : t := mk n (replicate (n * n) inf).

(** Modelled from the spec: one round of the shortest-path relaxation of
    [close()], through the intermediate index [k]. *)
Definition relax (k : nat) (d : t) : t :=
  mk (size d)
     (imap (fun idx x =>
              match cells d !! ((idx / size d) * size d + k), cells d !! (k * size d + idx mod size d) with
              | Some a, Some b => num_min x (num_add a b)
              | _, _ => x
              end) (cells d)).

(** Modelled from the spec: the coherence step of [close()], which tightens
    [d[i, j]] by half the sum of the two unary bounds [d[i, i^1]] and
    [d[j^1, j]]. *)
Definition flip (i : nat) : nat := if Nat.even i then S i else pred i.

Definition strengthen (d : t) : t :=
  mk (size d)
     (imap (fun idx x =>
              let i := idx / size d in
              let j := idx mod size d in
              match cells d !! (i * size d + flip i), cells d !! (flip j * size d + j) with
              | Some a, Some b => num_min x (num_half (num_add a b))
              | _, _ => x
              end) (cells d)).

(** Modelled from the spec: a negative bound on the diagonal is a negative
    cycle; the constraints are infeasible. *)
Definition infeasible (d : t) : bool :=
  existsb (fun i => match cells d !! (i * size d + i) with
                    | Some b => negb (num_le (int 0) b)
                    | None => false
                    end) (seq 0 (size d)).

(** Modelled from the spec: [close()], the relaxation through every index,
    then the coherence step.  How infeasibility is signalled is not
    described; the model raises [ValueError]. *)
Definition close_spec : M t unit :=
  fun d =>
    let d' := strengthen (fold_left (fun acc k => relax k acc) (seq 0 (size d)) d) in
    if infeasible d' then (Raise ValueError, d') else (Ok tt, d').

End CDBM.

(** ** Intervals *)

Module IntervalLattice.

(** Modelled from the spec: the class [IntervalLattice] of
    [abstract_domains.numerical.interval] is not among the sources; the
    module reads its [lower] and [upper] and calls [negate()]. *)
Record t := mk { lower : num; upper : num }.

(** Modelled from the spec: [IntervalLattice().top()]. *)
Definition top : t := mk NInf PInf.

(** Modelled from the spec: [negate()], the interval of the negated values. *)
Definition negate (i : t) : t := mk (num_neg (upper i)) (num_neg (lower i)).

End IntervalLattice.

(** ** Expressions

    Modelled from the spec: the classes of [core.expressions] are not among
    the sources.  The model keeps what [octagon.py] reads of them: a
    variable's [typ] and [name], the operators of the arithmetic operations
    and their operands. *)

Inductive PyType := TInt | TFloat | TBool | TStr.

#[global] Instance PyType_eq_dec : EqDecision PyType.
Proof. solve_decision. Defined.

Record VariableIdentifier := mkVar { typ : PyType; name : string }.

#[global] Instance VariableIdentifier_eq_dec : EqDecision VariableIdentifier.
Proof. solve_decision. Defined.

Definition PyType_code (t : PyType) : nat :=
  match t with TInt => 0 | TFloat => 1 | TBool => 2 | TStr => 3 end.

Definition PyType_of_code (n : nat) : PyType :=
  match n with 0 => TInt | 1 => TFloat | 2 => TBool | _ => TStr end.

#[global] Instance VariableIdentifier_countable : Countable VariableIdentifier.
Proof.
  refine (inj_countable' (fun v => (PyType_code (typ v), name v))
                         (fun p => mkVar (PyType_of_code p.1) p.2) _).
  intros [[] n]; reflexivity.
Defined.

(** [Sign = UnaryArithmeticOperation.Operator], an integer enumeration:
    the module multiplies its members and converts the product back. *)
Inductive Sign := Add | Sub.

#[global] Instance Sign_eq_dec : EqDecision Sign.
Proof. solve_decision. Defined.

Definition PLUS : Sign := Add.
Definition MINUS : Sign := Sub.

Definition Sign_value (s : Sign) : Z :=
  match s with Add => 1 | Sub => -1 end.

(** [Sign(n)]: the member whose value is [n]. *)
Definition Sign_of_value (n : Z) : res Sign :=
  if decide (n = 1)%Z then Ok Add
  else if decide (n = -1)%Z then Ok Sub
  else Raise ValueError.

(** [Sign(a * b)]. *)
Definition Sign_mul (a b : Sign) : res Sign := Sign_of_value (Sign_value a * Sign_value b).

Inductive BinaryOperator := BAdd | BSub | BMult | BDiv.

#[global] Instance BinaryOperator_eq_dec : EqDecision BinaryOperator.
Proof. solve_decision. Defined.

Inductive Expression :=
| Literal (typ : PyType) (val : string)
| Variable_ (v : VariableIdentifier)
| Input (typ : PyType)
| BinaryArithmeticOperation (left : Expression) (operator : BinaryOperator) (right : Expression)
| UnaryArithmeticOperation (operator : Sign) (expression : Expression)
| OtherExpression (kind : string).

(** A value passed as a positional argument. *)
Inductive pyval :=
| VSign (s : Sign)
| VVar (v : VariableIdentifier)
| VNum (x : num).

#[global] Instance pyval_eq_dec : EqDecision pyval.
Proof. solve_decision. Defined.

(** [def _index_shift(self, sign): return 1 if sign == MINUS else 0]

    A module-level function of two parameters, neither with a default.
    Applied to a list of positional arguments it binds them first: any
    other number of arguments is a [TypeError] before the body runs. *)
Definition _index_shift (args : list pyval) : res num :=
  match args with
  | [self; sign] => Ok (if decide (sign = VSign MINUS) then int 1 else int 0)
  | _ => Raise TypeError
  end.

(** ** [class OctagonLattice] *)

Record OctagonLattice := mkOctagon {
  _variables_list : list VariableIdentifier;
  _var_to_index : gmap VariableIdentifier nat;
  _index_to_var : gmap nat VariableIdentifier;
  _dbm : CDBM.t
}.

(** An index tuple, by the annotation of [__setitem__]; [OtherIndex n] is a
    tuple of some other length, the [n]-th of those. *)
Inductive index :=
| Index2 (var : VariableIdentifier) (sign : Sign)
| Index4 (var1 : VariableIdentifier) (sign1 : Sign) (var2 : VariableIdentifier) (sign2 : Sign)
| OtherIndex (n : nat).

(** The lengths other than 2 and 4, in order: 0, 1, 3, 5, 6, ... *)
Definition other_length (n : nat) : nat :=
  match n with
  | 0 => 0
  | 1 => 1
  | 2 => 3
  | S (S (S m)) => 5 + m
  end.

Definition len (i : index) : nat :=
  match i with
  | Index2 _ _ => 2
  | Index4 _ _ _ _ => 4
  | OtherIndex n => other_length n
  end.

(** [OctagonLattice.__init__]: every variable gets the next even index, and
    that index and its successor map back to it.  The call
    [super().__init__()] reaches classes outside the sources and is left out. *)
Definition init_maps (variables : list VariableIdentifier)
  : gmap VariableIdentifier nat * gmap nat VariableIdentifier * nat :=
  fold_left (fun '(v2i, i2v, index) var =>
               (<[var := index]> v2i, <[S index := var]> (<[index := var]> i2v), index + 2))
            variables (∅, ∅, 0).

Definition OctagonLattice_init (variables : list VariableIdentifier) : OctagonLattice :=
  let '(v2i, i2v, _) := init_maps variables in
  mkOctagon variables v2i i2v (CDBM.init (length variables * 2)).

(** The property [dbm]. *)
Definition dbm (self : OctagonLattice) : CDBM.t := _dbm self.

(** A method of [self.dbm], run on the matrix the octagon owns. *)
Definition on_dbm {A} (m : M CDBM.t A) : M OctagonLattice A :=
  fun self => let '(r, d) := m (dbm self) in
              (r, mkOctagon (_variables_list self) (_var_to_index self) (_index_to_var self) d).

(** [self.dbm[i, j]]. *)
Definition dbm_get (i j : nat) : M OctagonLattice num :=
  fun self => (CDBM.get (dbm self) i j, self).

(** [self._var_to_index[key]], for a key that is the outcome of an addition
    on a variable: a key equal to no variable of the dictionary is a
    [KeyError]. *)
Definition var_to_index_lookup (key : option VariableIdentifier) : M OctagonLattice nat :=
  fun self => match key ≫= (fun v => _var_to_index self !! v) with
              | Some i => (Ok i, self)
              | None => (Raise KeyError, self)
              end.

(** Binding a list of positional arguments to the parameters
    [(var, constant)] of a bound method: a [TypeError] unless there are two. *)
Definition bind_var_constant {A} (method : VariableIdentifier -> num -> M OctagonLattice A)
  (args : list pyval) : M OctagonLattice A :=
  match args with
  | [VVar var; VNum constant] => method var constant
  | _ => raise TypeError
  end.

(** [interval: Union[int, IntervalLattice]]. *)
Inductive interval_or_int :=
| AnInterval (i : IntervalLattice.t)
| AnInt (n : num).

Section Octagon.

Local Open Scope py_scope.

(** What the module calls and the sources do not contain.

    [var__add__ var x] is [var + x] on a [VariableIdentifier], read as a key
    of [_var_to_index]: it raises, or yields a key equal to some variable
    ([Some]) or to none ([None]).

    [close] is [IntegerCDBM.close()].

    [evaluate_expression] is [IntervalLattice.evaluate_expression]. *)
Variable var__add__ : VariableIdentifier -> pyval -> res (option VariableIdentifier).
Variable close : M CDBM.t unit.
Variable evaluate_expression : Expression -> res IntervalLattice.t.

(** [self._var_to_index[var + _index_shift(sign)]], the call passing one
    positional argument. *)
Definition signed_index (var : VariableIdentifier) (sign : Sign) : M OctagonLattice nat :=
  shift <- lift (_index_shift [VSign sign]) ;;
  key <- lift (var__add__ var (VNum shift)) ;;
  var_to_index_lookup key.

Definition __getitem__ (index_tuple : index) : M OctagonLattice num :=
  match index_tuple with
  | Index4 var1 sign1 var2 sign2 =>
      i <- signed_index var1 sign1 ;;
      j <- signed_index var2 sign2 ;;
      dbm_get i j
  | _ => raise ValueError
  end.

(** The two [if] statements of [__setitem__] follow one another; the [else]
    belongs to the second. *)
Definition __setitem__ (index : index) (value : num) : M OctagonLattice unit :=
  match index with
  | Index4 var1 sign1 var2 sign2 =>
      i <- signed_index var1 sign1 ;;
      j <- signed_index var2 sign2 ;;
      if decide (i ≠ j) then on_dbm (CDBM.set i j value) else ret tt
  | _ => ret tt
  end ;;
  match index with
  | Index2 var sign =>
      key <- lift (var__add__ var (VSign sign)) ;;
      k <- var_to_index_lookup key ;;
      size <- (fun self => (Ok (CDBM.size (dbm self)), self)) ;;
      for_each (seq 0 size)
        (fun i => if decide (i ≠ k)
                  then on_dbm (CDBM.set i k value) ;; on_dbm (CDBM.set k i value)
                  else ret tt)
  | _ => raise ValueError
  end.

Definition top : M OctagonLattice unit :=
  keys <- (fun self => (Ok (CDBM.keys (dbm self)), self)) ;;
  for_each keys (fun '(i, j) => on_dbm (CDBM.set i j inf)).

Definition default : M OctagonLattice unit := top.

(** The list [[isinf(b) for k, b in items if b[0] != b[1]]]: the condition
    subscripts the bound [b]. *)
Fixpoint is_top_list (items : list ((nat * nat) * num)) : res (list bool) :=
  match items with
  | [] => Ok []
  | (k, b) :: rest =>
      res_bind (num_subscript b 0) (fun b0 =>
      res_bind (num_subscript b 1) (fun b1 =>
      res_bind (is_top_list rest) (fun tl =>
      Ok (if decide (b0 ≠ b1) then isinf b :: tl else tl))))
  end.

Definition is_top : M OctagonLattice bool :=
  fun self => (res_bind (is_top_list (CDBM.items (dbm self))) (fun l => Ok (forallb id l)), self).

Definition _less_equal (other : OctagonLattice) : M OctagonLattice bool :=
  fun self =>
    if decide (CDBM.size (dbm self) ≠ CDBM.size (dbm other)) then (Raise ValueError, self)
    else (Ok (forallb (fun '(x, y) => num_le x y)
                      (zip (CDBM.values (dbm self)) (CDBM.values (dbm other)))), self).

Definition _meet (other : OctagonLattice) : M OctagonLattice unit :=
  fun self =>
    if decide (CDBM.size (dbm self) ≠ CDBM.size (dbm other)) then (Raise ValueError, self)
    else on_dbm (CDBM.intersection (dbm other)) self.

(** [_join] closes [other] as well: the state is the pair [(self, other)]. *)
Definition _join : M (OctagonLattice * OctagonLattice) unit :=
  fun '(self, other) =>
    if decide (CDBM.size (dbm self) ≠ CDBM.size (dbm other)) then (Raise ValueError, (self, other))
    else
      match on_dbm close self with
      | (Raise e, self') => (Raise e, (self', other))
      | (Ok _, self') =>
          match on_dbm close other with
          | (Raise e, other') => (Raise e, (self', other'))
          | (Ok _, other') =>
              let '(r, self'') := on_dbm (CDBM.union (dbm other')) self' in
              (r, (self'', other'))
          end
      end.

(** [lambda a, b: a if a >= b else inf]. *)
Definition widening_rule (a b : num) : num := if num_ge a b then a else inf.

Definition _widening (other : OctagonLattice) : M OctagonLattice unit :=
  on_dbm (CDBM.zip_with_dbm (dbm other) widening_rule).

Definition forget (var : VariableIdentifier) : M OctagonLattice unit :=
  on_dbm close ;;
  __setitem__ (Index2 var PLUS) inf ;;
  __setitem__ (Index2 var MINUS) inf.

Definition set_lb (var : VariableIdentifier) (constant : num) : M OctagonLattice unit :=
  __setitem__ (Index4 var MINUS var PLUS) (num_scale 2 constant).

Definition get_lb (var : VariableIdentifier) : M OctagonLattice num :=
  x <- __getitem__ (Index4 var PLUS var MINUS) ;; ret (num_half x).

Definition set_ub (var : VariableIdentifier) (constant : num) : M OctagonLattice unit :=
  __setitem__ (Index4 var PLUS var MINUS) (num_scale (-2) constant).

Definition get_ub (var : VariableIdentifier) : M OctagonLattice num :=
  x <- __getitem__ (Index4 var MINUS var PLUS) ;; ret (num_half x).

(** [set_interval] calls [self.set_lb(...)] and [self.set_ub(...)] with the
    bound as the only argument. *)
Definition set_interval (var : VariableIdentifier) (interval : interval_or_int) : M OctagonLattice unit :=
  match interval with
  | AnInterval i =>
      bind_var_constant set_lb [VNum (IntervalLattice.lower i)] ;;
      bind_var_constant set_ub [VNum (IntervalLattice.upper i)]
  | AnInt n =>
      bind_var_constant set_lb [VNum n] ;;
      bind_var_constant set_ub [VNum n]
  end.

Definition set_octagonal_constraint (sign1 : Sign) (var1 : VariableIdentifier)
  (sign2 : Sign) (var2 : VariableIdentifier) (constant : num) : M OctagonLattice unit :=
  s <- lift (Sign_mul sign1 MINUS) ;;
  __setitem__ (Index4 var1 s var2 sign2) constant.

(** ** [class SingleVarLinearForm]

    The form [+/- var + interval] of an expression, filled in by one visit.
    Instances of [VariableIdentifier] and [IntervalLattice] are objects
    without a truth value of their own: a field tests true once it is set. *)

Record SingleVarLinearForm := mkForm {
  _var_sign : Sign;
  _var : option VariableIdentifier;
  _interval : option IntervalLattice.t
}.

(** The setter of [var_sign]. *)
Definition set_var_sign (value : Sign) : M SingleVarLinearForm unit :=
  fun self => (Ok tt, mkForm value (_var self) (_interval self)).

(** The setter of [var]: a second assignment raises. *)
Definition set_var (value : VariableIdentifier) : M SingleVarLinearForm unit :=
  fun self => match _var self with
              | Some _ => (Raise ValueError, self)
              | None => (Ok tt, mkForm (_var_sign self) (Some value) (_interval self))
              end.

(** The setter of [interval]: a second assignment raises. *)
Definition set_form_interval (value : IntervalLattice.t) : M SingleVarLinearForm unit :=
  fun self => match _interval self with
              | Some _ => (Raise ValueError, self)
              | None => (Ok tt, mkForm (_var_sign self) (_var self) (Some value))
              end.

(** [self.interval.negate()]: the interval the form holds is negated in place. *)
Definition negate_form_interval : M SingleVarLinearForm unit :=
  fun self => (Ok tt, mkForm (_var_sign self) (_var self) (IntervalLattice.negate <$> _interval self)).

Definition visit_Literal (expr : Expression) : M SingleVarLinearForm unit :=
  i <- lift (evaluate_expression expr) ;; set_form_interval i.

Definition visit_VariableIdentifier (expr : VariableIdentifier) : M SingleVarLinearForm unit :=
  set_var expr.

Definition visit_Input (expr : Expression) : M SingleVarLinearForm unit :=
  set_form_interval IntervalLattice.top.

(** The local function of [visit_BinaryArithmeticOperation]. *)
Definition binary_to_unary_operator (binary_operator : BinaryOperator) : res Sign :=
  match binary_operator with
  | BAdd => Ok PLUS
  | BSub => Ok MINUS
  | _ => Raise ValueError
  end.

Definition visit_BinaryArithmeticOperation (left : Expression) (operator : BinaryOperator)
  (right : Expression) : M SingleVarLinearForm unit :=
  try_except_ValueError
    (i <- lift (evaluate_expression left) ;; set_form_interval i)
    (match left with
     | Variable_ v => set_var v
     | UnaryArithmeticOperation op (Variable_ v) => set_var v ;; set_var_sign op
     | _ => raise ValueError
     end) ;;
  try_except_ValueError
    (i <- lift (evaluate_expression right) ;;
     set_form_interval i ;;
     s <- lift (binary_to_unary_operator operator) ;;
     if decide (s = MINUS) then negate_form_interval else ret tt)
    (match right with
     | Variable_ v =>
         set_var v ;;
         s <- lift (binary_to_unary_operator operator) ;;
         set_var_sign s
     | UnaryArithmeticOperation op (Variable_ v) =>
         set_var v ;;
         s <- lift (binary_to_unary_operator operator) ;;
         s' <- lift (Sign_mul s op) ;;
         set_var_sign s'
     | _ => raise ValueError
     end).

Definition visit_UnaryArithmeticOperation (operator : Sign) (expression : Expression)
  : M SingleVarLinearForm unit :=
  try_except_ValueError
    (i <- lift (evaluate_expression (UnaryArithmeticOperation operator expression)) ;;
     set_form_interval i)
    (match expression with
     | Variable_ v => set_var v ;; set_var_sign operator
     | _ => raise ValueError
     end).

Definition generic_visit (expr : Expression) : M SingleVarLinearForm unit :=
  raise ValueError.

(** [ExpressionVisitor.visit]: the method named after the class of the
    expression, or [generic_visit] when the visitor defines none. *)
Definition visit (expr : Expression) : M SingleVarLinearForm unit :=
  match expr with
  | Literal _ _ => visit_Literal expr
  | Variable_ v => visit_VariableIdentifier v
  | Input _ => visit_Input expr
  | BinaryArithmeticOperation l op r => visit_BinaryArithmeticOperation l op r
  | UnaryArithmeticOperation op e => visit_UnaryArithmeticOperation op e
  | OtherExpression _ => generic_visit expr
  end.

(** [SingleVarLinearForm(expr)]: the form, or the exception the visit raised. *)
Definition SingleVarLinearForm_init (expr : Expression) : res SingleVarLinearForm :=
  match visit expr (mkForm PLUS None None) with
  | (Ok _, form) => Ok form
  | (Raise e, _) => Raise e
  end.

(** ** [class OctagonDomain] *)

(** [_assign_variable] returns [self]; the value here is what it printed.
    [target] is [left] once it is known to be a [VariableIdentifier]. *)
Definition _assign_variable (left right : Expression) : M OctagonLattice (list string) :=
  match left with
  | Variable_ target =>
      if decide (typ target ≠ TInt) then raise ValueError
      else
        try_except_ValueError
          (form <- lift (SingleVarLinearForm_init right) ;;
           match _var form, _interval form with
           | None, Some interval =>
               forget target ;;
               set_interval target (AnInterval interval) ;;
               ret []
           | Some var, Some interval =>
               if decide (var = target) then
                 if decide (_var_sign form = PLUS) then
                   lb <- get_lb target ;;
                   ub <- get_ub target ;;
                   set_interval target
                     (AnInterval (IntervalLattice.mk (num_add lb (IntervalLattice.lower interval))
                                                     (num_add ub (IntervalLattice.upper interval)))) ;;
                   ret []
                 else if decide (_var_sign form = MINUS) then ret []
                 else raise ValueError
               else ret []
           | _, None => ret []
           end)
          (ret ["right is not in single variable linear form"%string])
  | _ => ret []
  end.

End Octagon.

(** ** The remaining methods of [OctagonLattice] *)

(** [x < y]. *)
Definition num_lt (x y : num) : bool :=
  match x, y with
  | NaN, _ | _, NaN => false
  | Fin a, Fin b => bool_decide (a < b)%Qc
  | NInf, NInf => false
  | NInf, _ => true
  | PInf, _ => false
  | Fin _, PInf => true
  | Fin _, NInf => false
  end.

(** [for x in xs: res += body x], for a body that yields the strings it appends. *)
Fixpoint for_append {S X} (xs : list X) (body : X -> M S (list string)) : M S (list string) :=
  match xs with
  | [] => ret []
  | x :: rest =>
      bind (body x) (fun here => bind (for_append rest body) (fun there => ret (here ++ there)))
  end.

(** Binding a list of positional arguments to the one parameter [var] of a
    bound method: a [TypeError] unless there is one. *)
Definition bind_var {A} (method : VariableIdentifier -> M OctagonLattice A)
  (args : list pyval) : M OctagonLattice A :=
  match args with
  | [VVar var] => method var
  | _ => raise TypeError
  end.

Section OctagonText.

Local Open Scope py_scope.

Variable var__add__ : VariableIdentifier -> pyval -> res (option VariableIdentifier).

(** [str(x)] of a number inside an f-string; how Python prints an [int] or
    a [float] is left open. *)
Variable format_num : num -> string.

(** The first loop of [__repr__]: the unary constraints of one variable. *)
Definition repr_unary (var : VariableIdentifier) : M OctagonLattice (list string) :=
  l <- __getitem__ var__add__ (Index4 var PLUS var MINUS) ;;
  u <- __getitem__ var__add__ (Index4 var MINUS var PLUS) ;;
  let lower := num_half l in
  let upper := num_half u in
  ret (if num_lt lower inf && num_lt upper inf
       then [format_num lower +:+ "<=" +:+ name var +:+ "<=" +:+ format_num upper]
       else if num_lt lower inf then [format_num lower +:+ "<=" +:+ name var]
       else if num_lt upper inf then [name var +:+ "<=" +:+ format_num upper]
       else []).

(** The body of the second loop of [__repr__]: the binary constraints of a
    pair of variables. *)
Definition repr_binary (var1 var2 : VariableIdentifier) : M OctagonLattice (list string) :=
  if decide (var1 ≠ var2) then
    c1 <- __getitem__ var__add__ (Index4 var1 MINUS var2 PLUS) ;;
    c2 <- __getitem__ var__add__ (Index4 var1 MINUS var2 MINUS) ;;
    c3 <- __getitem__ var__add__ (Index4 var1 PLUS var2 PLUS) ;;
    c4 <- __getitem__ var__add__ (Index4 var1 PLUS var2 MINUS) ;;
    ret ((if num_lt c1 inf then [name var1 +:+ "+" +:+ name var2 +:+ "<=" +:+ format_num c1] else [])
         ++ (if num_lt c2 inf then [name var1 +:+ "-" +:+ name var2 +:+ "<=" +:+ format_num c2] else [])
         ++ (if num_lt c3 inf then ["-" +:+ name var1 +:+ "+" +:+ name var2 +:+ "<=" +:+ format_num c3] else [])
         ++ (if num_lt c4 inf then ["-" +:+ name var1 +:+ "-" +:+ name var2 +:+ "<=" +:+ format_num c4] else []))
  else ret [].

Definition __repr__ : M OctagonLattice string :=
  variables <- (fun self => (Ok (_variables_list self), self)) ;;
  unary <- for_append variables repr_unary ;;
  binary <- for_append variables (fun var1 => for_append variables (repr_binary var1)) ;;
  ret (String.concat ", " (unary ++ binary)).

(** [get_interval] calls [self.get_ub()] without the variable. *)
Definition get_interval (var : VariableIdentifier) : M OctagonLattice IntervalLattice.t :=
  l <- get_lb var__add__ var ;;
  u <- bind_var (get_ub var__add__) [] ;;
  ret (IntervalLattice.mk l u).

End OctagonText.

(** ** Instances for the parts outside the sources

    The statements below are proved for every [var__add__], [close] and
    [evaluate_expression].  Running the model on a concrete input needs one
    of each. *)

(** Modelled from the spec: [VariableIdentifier] of [core.expressions] is
    not among the sources and nothing describes an addition on it; as for
    any class without [__add__], [var + x] is a [TypeError]. *)
Definition no__add__ (var : VariableIdentifier) (x : pyval) : res (option VariableIdentifier) :=
  Raise TypeError.

(** An addition that hands back the variable itself, whatever is added:
    the most forgiving [__add__] under which every lookup succeeds. *)
Definition same__add__ (var : VariableIdentifier) (x : pyval) : res (option VariableIdentifier) :=
  Ok (Some var).

(** The value of a decimal literal. *)
Fixpoint parse_digits (s : string) (acc : Z) : option Z :=
  match s with
  | EmptyString => Some acc
  | String c rest =>
      let n := Z.of_nat (Ascii.nat_of_ascii c) in
      if ((48 <=? n) && (n <=? 57))%Z then parse_digits rest (10 * acc + (n - 48))%Z else None
  end.

(** Modelled from the spec: [IntervalLattice.evaluate_expression], which
    evaluates "an expression to a constant interval when possible" and
    fails otherwise: an integer literal is a point, an input is unbounded,
    sums, differences and signs are computed on the bounds, and anything
    that reads a variable fails with [ValueError]. *)
Fixpoint evaluate_spec (e : Expression) : res IntervalLattice.t :=
  match e with
  | Literal TInt val =>
      match parse_digits val 0 with
      | Some n => Ok (IntervalLattice.mk (int n) (int n))
      | None => Raise ValueError
      end
  | Literal _ _ => Ok IntervalLattice.top
  | Input _ => Ok IntervalLattice.top
  | BinaryArithmeticOperation l op r =>
      res_bind (evaluate_spec l) (fun a =>
      res_bind (evaluate_spec r) (fun b =>
      match op with
      | BAdd => Ok (IntervalLattice.mk (num_add (IntervalLattice.lower a) (IntervalLattice.lower b))
                                       (num_add (IntervalLattice.upper a) (IntervalLattice.upper b)))
      | BSub => Ok (IntervalLattice.mk (num_add (IntervalLattice.lower a) (num_neg (IntervalLattice.upper b)))
                                       (num_add (IntervalLattice.upper a) (num_neg (IntervalLattice.lower b))))
      | _ => Raise ValueError
      end))
  | UnaryArithmeticOperation op e' =>
      res_bind (evaluate_spec e') (fun a =>
      match op with
      | Add => Ok a
      | Sub => Ok (IntervalLattice.negate a)
      end)
  | _ => Raise ValueError
  end.

(** The octagon [o] with the matrix [d] in place of its own. *)
Definition with_dbm (o : OctagonLattice) (d : CDBM.t) : OctagonLattice :=
  mkOctagon (_variables_list o) (_var_to_index o) (_index_to_var o) d.

(** Two integer variables, and the octagons used as concrete inputs. *)
Definition x : VariableIdentifier := mkVar TInt "x".
Definition y : VariableIdentifier := mkVar TInt "y".

Definition octagon_xy : OctagonLattice := OctagonLattice_init [x; y].

Definition octagon_x : OctagonLattice := OctagonLattice_init [x].

(** Over [x] and [y], the one constraint [y - x <= 5], written at the two
    positions that relate the negative occurrences ([1], [3]) and the
    positive ones ([2], [0]); zero on the diagonal. *)
Definition octagon_xy_binary : OctagonLattice :=
  mkOctagon (_variables_list octagon_xy) (_var_to_index octagon_xy) (_index_to_var octagon_xy)
    (CDBM.mk 4 [int 0; inf;   inf;   inf;
                inf;   int 0; inf;   int 5;
                int 5; inf;   int 0; inf;
                inf;   inf;   inf;   int 0]).

(** Iterating [widening] along a sequence of octagons [A]: the first
    iterate is [A 0], the next one widens the current iterate by the next
    element. *)
Fixpoint widening_iterates (A : nat -> OctagonLattice) (k : nat) : res OctagonLattice :=
  match k with
  | 0 => Ok (A 0)
  | S k' =>
      res_bind (widening_iterates A k') (fun w =>
        match _widening (A (S k')) w with
        | (Ok _, w') => Ok w'
        | (Raise e, _) => Raise e
        end)
  end.

(** The widening of the iterate [w] by the element [A (S k)], cell by cell. *)
Definition widening_step (A : nat -> OctagonLattice) (k : nat) (w : OctagonLattice) : OctagonLattice :=
  with_dbm w (CDBM.mk (CDBM.size (dbm w))
                (zip_with widening_rule (CDBM.cells (dbm w)) (CDBM.cells (dbm (A (S k)))))).

(** What a position [(a, b)] of the matrix holds, with the dictionary. *)
Definition view (a b : nat) (o : OctagonLattice) : res num * gmap VariableIdentifier nat :=
  (CDBM.get (dbm o) a b, _var_to_index o).

(** A sequence that tightens strictly at every step: over [x], the two
    unary bounds are [-k] at step [k]. *)
Definition tightening_sequence (k : nat) : OctagonLattice :=
  with_dbm octagon_x (CDBM.mk 2 [int 0; int (- Z.of_nat k); int (- Z.of_nat k); int 0]).

(** Right-hand sides: the literal [10], [x + 1] and [x + y]. *)
Definition literal_ten : Expression := Literal TInt "10".

Definition x_plus_one : Expression :=
  BinaryArithmeticOperation (Variable_ x) BAdd (Literal TInt "1").

Definition x_plus_y : Expression :=
  BinaryArithmeticOperation (Variable_ x) BAdd (Variable_ y).


(** Iterating [widening] as a fixpoint loop does: the next operand is
    computed from the current iterate by [F]. *)
Fixpoint widening_loop (F : OctagonLattice -> OctagonLattice) (start : OctagonLattice)
  (k : nat) : res OctagonLattice :=
  match k with
  | 0 => Ok start
  | S k' =>
      res_bind (widening_loop F start k') (fun w =>
        match _widening (F w) w with
        | (Ok _, w') => Ok w'
        | (Raise e, _) => Raise e
        end)
  end.

(** One round of that loop, cell by cell. *)
Definition widen_by (F : OctagonLattice -> OctagonLattice) (w : OctagonLattice) : OctagonLattice :=
  with_dbm w (CDBM.mk (CDBM.size (dbm w))
                (zip_with widening_rule (CDBM.cells (dbm w)) (CDBM.cells (dbm (F w))))).

(** A sequence over [x] that loosens once and tightens from then on: the
    two unary bounds are [0], then [1], [0], [-1], ... *)
Definition loosen_then_tighten (k : nat) : OctagonLattice :=
  with_dbm octagon_x
    (CDBM.mk 2 [int 0;
                int (match k with 0 => 0 | S k' => 1 - Z.of_nat k' end);
                int (match k with 0 => 0 | S k' => 1 - Z.of_nat k' end);
                int 0]).

(** A loop body that sets both unary bounds of [x] to [1]. *)
Definition bounds_to_one (w : OctagonLattice) : OctagonLattice := loosen_then_tighten 1.

(** The entries of a matrix that still carry a constraint. *)
Definition constrained (d : CDBM.t) : nat := length (filter (fun b => b ≠ inf) (CDBM.cells d)).

#[global] Instance CDBM_eq_dec : EqDecision CDBM.t.
Proof. solve_decision. Defined.

#[global] Instance OctagonLattice_eq_dec : EqDecision OctagonLattice.
Proof. solve_decision. Defined.

#[global] Instance res_eq_dec {A} `{EqDecision A} : EqDecision (res A).
Proof. solve_decision. Defined.

(** * Properties *)

(** ** The order on bounds *)

Lemma num_le_antisym (a b : num) : num_le a b = true -> num_le b a = true -> a = b.
Proof.
  destruct a as [p| | |], b as [q| | |]; simpl; try discriminate; try reflexivity.
  intros Hab Hba.
  apply bool_decide_eq_true in Hab, Hba.
  f_equal. apply Qcle_antisym; assumption.
Qed.

Lemma num_le_trans (a b c : num) : num_le a b = true -> num_le b c = true -> num_le a c = true.
Proof.
  destruct a as [p| | |], b as [q| | |], c as [r| | |]; simpl; try discriminate; try reflexivity.
  intros Hab Hbc.
  apply bool_decide_eq_true in Hab, Hbc.
  apply bool_decide_eq_true. eapply Qcle_trans; eassumption.
Qed.

(** The rule of [_widening] keeps a bound or replaces it by [inf]. *)
Lemma widening_rule_cases (a b : num) : widening_rule a b = a \/ widening_rule a b = inf.
Proof. unfold widening_rule. destruct (num_ge a b); auto. Qed.

Lemma widening_rule_stable (a b : num) : num_le b a = true -> widening_rule a b = a.
Proof. unfold widening_rule, num_ge. intros ->. reflexivity. Qed.

(** An entry at [inf] stays there. *)
Lemma widening_rule_inf (b : num) : widening_rule inf b = inf.
Proof. unfold widening_rule. destruct (num_ge inf b); reflexivity. Qed.

(** ** The matrix *)

Lemma collect_total {X Y} (f : X -> res Y) (g : X -> Y) (xs : list X) :
  (forall a, a ∈ xs -> f a = Ok (g a)) -> CDBM.collect f xs = Ok (g <$> xs).
Proof.
  induction xs as [|a xs IH]; intros Hf; simpl.
  - reflexivity.
  - rewrite (Hf a) by (left; reflexivity). simpl.
    rewrite IH by (intros b Hb; apply Hf; right; exact Hb).
    reflexivity.
Qed.

(** Row-major addressing: position [idx] of the list is row [idx / n],
    column [idx mod n]. *)
Lemma row_major (n idx : nat) :
  idx < n * n -> idx / n < n /\ idx mod n < n /\ idx / n * n + idx mod n = idx.
Proof.
  intros Hidx.
  assert (n <> 0) as Hn by (intros ->; simpl in Hidx; lia).
  split; [apply Nat.Div0.div_lt_upper_bound; lia|].
  split; [apply Nat.mod_upper_bound; exact Hn|].
  pose proof (Nat.div_mod idx n Hn). lia.
Qed.

Lemma get_row_major (d : CDBM.t) (idx : nat) (b : num) :
  idx < CDBM.size d * CDBM.size d ->
  CDBM.cells d !! idx = Some b ->
  CDBM.get d (idx / CDBM.size d) (idx mod CDBM.size d) = Ok b.
Proof.
  intros Hidx Hb.
  destruct (row_major _ _ Hidx) as (Hi & Hj & Heq).
  unfold CDBM.get, CDBM.in_range.
  apply Nat.ltb_lt in Hi, Hj. rewrite Hi, Hj. simpl.
  rewrite Heq, Hb. reflexivity.
Qed.

(** On matrices of one size, [zip] is the entrywise combination and
    returns normally. *)
Lemma zip_with_dbm_same_size (f : num -> num -> num) (d other : CDBM.t) :
  CDBM.wf d -> CDBM.wf other -> CDBM.size d = CDBM.size other ->
  CDBM.zip_with_dbm other f d
  = (Ok tt, CDBM.mk (CDBM.size d) (zip_with f (CDBM.cells d) (CDBM.cells other))).
Proof.
  intros Hd Ho Hsize.
  unfold CDBM.wf in Hd, Ho. rewrite <- Hsize in Ho.
  unfold CDBM.zip_with_dbm, CDBM.keys.
  set (g := fun idx : nat => f (from_option id inf (CDBM.cells d !! idx))
                               (from_option id inf (CDBM.cells other !! idx))).
  rewrite (collect_total _ (fun '(i, j) => g (i * CDBM.size d + j))).
  - f_equal. f_equal.
    rewrite <- list_fmap_compose.
    apply list_eq. intros idx.
    rewrite list_lookup_fmap, lookup_zip_with.
    destruct (decide (idx < CDBM.size d * CDBM.size d)) as [Hlt|Hge].
    + rewrite lookup_seq_lt by exact Hlt. simpl.
      destruct (row_major _ _ Hlt) as (_ & _ & ->).
      unfold g.
      destruct (lookup_lt_is_Some_2 (CDBM.cells d) idx) as [a Ha]; [lia|].
      destruct (lookup_lt_is_Some_2 (CDBM.cells other) idx) as [b Hb]; [lia|].
      rewrite Ha, Hb. reflexivity.
    + rewrite lookup_seq_ge by lia. simpl.
      rewrite (lookup_ge_None_2 (CDBM.cells d)) by lia.
      reflexivity.
  - intros [i j] Hin.
    apply list_elem_of_fmap in Hin as (idx & Heq & Hidx).
    apply elem_of_seq in Hidx as [_ Hidx]. simpl in Hidx.
    injection Heq as -> ->.
    destruct (lookup_lt_is_Some_2 (CDBM.cells d) idx) as [a Ha]; [lia|].
    destruct (lookup_lt_is_Some_2 (CDBM.cells other) idx) as [b Hb]; [lia|].
    rewrite (get_row_major d idx a Hidx Ha).
    assert (CDBM.get other (idx / CDBM.size d) (idx mod CDBM.size d) = Ok b) as ->.
    { rewrite Hsize. apply get_row_major; [rewrite <- Hsize; exact Hidx | exact Hb]. }
    simpl. unfold g.
    destruct (row_major _ _ Hidx) as (_ & _ & ->).
    rewrite Ha, Hb. reflexivity.
Qed.

Lemma match_nil_length {A B C} (l : list A) (l' : list B) (a b : C) :
  length l = length l' ->
  match l with [] => a | _ :: _ => b end = match l' with [] => a | _ :: _ => b end.
Proof. destruct l, l'; simpl; intros H; try reflexivity; discriminate. Qed.

Lemma items_length (d : CDBM.t) :
  length (CDBM.items d) = Nat.min (CDBM.size d * CDBM.size d) (length (CDBM.cells d)).
Proof.
  unfold CDBM.items, CDBM.keys, CDBM.values.
  rewrite length_zip_with, length_fmap, length_seq. reflexivity.
Qed.

(** A write keeps the size of the matrix and the number of its cells, and
    leaves every other position as it was, whether or not it is accepted. *)
Lemma set_shape (i j : nat) (b : num) (d : CDBM.t) :
  CDBM.size (snd (CDBM.set i j b d)) = CDBM.size d /\
  length (CDBM.cells (snd (CDBM.set i j b d))) = length (CDBM.cells d).
Proof.
  unfold CDBM.set. destruct (CDBM.in_range d i j); simpl; [|auto].
  split; [reflexivity | apply length_insert].
Qed.

Lemma set_frame (i j : nat) (b : num) (d : CDBM.t) (i' j' : nat) :
  (i', j') <> (i, j) ->
  CDBM.get (snd (CDBM.set i j b d)) i' j' = CDBM.get d i' j'.
Proof.
  intros Hne.
  unfold CDBM.set.
  destruct (CDBM.in_range d i j) eqn:Hin; simpl; [|reflexivity].
  unfold CDBM.get, CDBM.in_range in *. simpl.
  destruct ((i' <? CDBM.size d) && (j' <? CDBM.size d)) eqn:Hin'; [|reflexivity].
  apply andb_true_iff in Hin as [Hi Hj], Hin' as [Hi' Hj'].
  apply Nat.ltb_lt in Hi, Hj, Hi', Hj'.
  rewrite list_lookup_insert_ne; [reflexivity|].
  intros Heq. apply Hne.
  assert (i = i') by nia. subst i'.
  f_equal. lia.
Qed.

Lemma on_dbm_set_shape (i j : nat) (b : num) (o : OctagonLattice) :
  CDBM.size (dbm (snd (on_dbm (CDBM.set i j b) o))) = CDBM.size (dbm o) /\
  length (CDBM.cells (dbm (snd (on_dbm (CDBM.set i j b) o)))) = length (CDBM.cells (dbm o)).
Proof.
  unfold on_dbm.
  pose proof (set_shape i j b (dbm o)) as H.
  destruct (CDBM.set i j b (dbm o)) as [r d]. exact H.
Qed.

Lemma for_each_set_shape (ks : list (nat * nat)) (b : num) (o : OctagonLattice) :
  CDBM.size (dbm (snd (for_each ks (fun '(i, j) => on_dbm (CDBM.set i j b)) o))) = CDBM.size (dbm o) /\
  length (CDBM.cells (dbm (snd (for_each ks (fun '(i, j) => on_dbm (CDBM.set i j b)) o))))
  = length (CDBM.cells (dbm o)).
Proof.
  revert o. induction ks as [|[i j] ks IH]; intros o; simpl.
  - auto.
  - unfold bind.
    pose proof (on_dbm_set_shape i j b o) as [Hs Hl].
    destruct (on_dbm (CDBM.set i j b) o) as [[[]|e] o1]; simpl in *.
    + destruct (IH o1) as [Hs' Hl']. split; congruence.
    + auto.
Qed.

(** [top()] keeps the shape of the matrix. *)
Lemma top_shape (o : OctagonLattice) :
  CDBM.size (dbm (snd (top o))) = CDBM.size (dbm o) /\
  length (CDBM.cells (dbm (snd (top o)))) = length (CDBM.cells (dbm o)).
Proof. unfold top, bind. simpl. apply for_each_set_shape. Qed.

Lemma for_each_set_ok (ks : list (nat * nat)) (b : num) (o : OctagonLattice) :
  (forall i j, (i, j) ∈ ks -> i < CDBM.size (dbm o) /\ j < CDBM.size (dbm o)) ->
  fst (for_each ks (fun '(i, j) => on_dbm (CDBM.set i j b)) o) = Ok tt.
Proof.
  revert o. induction ks as [|[i j] ks IH]; intros o Hks; simpl.
  - reflexivity.
  - unfold bind.
    pose proof (on_dbm_set_shape i j b o) as [Hs _].
    destruct (Hks i j) as [Hi Hj]; [left|].
    assert (fst (on_dbm (CDBM.set i j b) o) = Ok tt) as Hok.
    { unfold on_dbm, CDBM.set, CDBM.in_range.
      apply Nat.ltb_lt in Hi, Hj. rewrite Hi, Hj. reflexivity. }
    destruct (on_dbm (CDBM.set i j b) o) as [r o1]; simpl in *. subst r.
    apply IH. intros i' j' Hin. rewrite Hs. apply Hks. right. exact Hin.
Qed.

(** [top()] returns normally: every key it walks is a position of the matrix. *)
Lemma top_ok (o : OctagonLattice) : fst (top o) = Ok tt.
Proof.
  unfold top, bind. simpl.
  apply for_each_set_ok. intros i j Hin.
  unfold CDBM.keys in Hin.
  apply list_elem_of_fmap in Hin as (idx & Heq & Hidx).
  apply elem_of_seq in Hidx as [_ Hidx]. simpl in Hidx.
  injection Heq as -> ->.
  destruct (row_major _ _ Hidx) as (Hi & Hj & _). auto.
Qed.

(** [is_top()] answers only on a matrix without entries: the condition of
    its comprehension subscripts the first bound it meets. *)
Lemma is_top_outcome (o : OctagonLattice) :
  is_top o = (match CDBM.items (dbm o) with [] => Ok true | _ :: _ => Raise TypeError end, o).
Proof.
  unfold is_top. destruct (CDBM.items (dbm o)) as [|[k b] rest]; reflexivity.
Qed.

Section OctagonProperties.

Variable var__add__ : VariableIdentifier -> pyval -> res (option VariableIdentifier).
Variable close : M CDBM.t unit.
Variable evaluate_expression : Expression -> res IntervalLattice.t.

(** ** The index computation

    [_index_shift] is declared with the parameters [(self, sign)] and every
    call passes one argument.  The call raises before the dictionary is
    read, so a four-element index never reaches the matrix. *)

Lemma signed_index_raises (var : VariableIdentifier) (sign : Sign) (o : OctagonLattice) :
  signed_index var__add__ var sign o = (Raise TypeError, o).
Proof. reflexivity. Qed.

Lemma getitem_four_raises (var1 var2 : VariableIdentifier) (sign1 sign2 : Sign) (o : OctagonLattice) :
  __getitem__ var__add__ (Index4 var1 sign1 var2 sign2) o = (Raise TypeError, o).
Proof. reflexivity. Qed.

Lemma setitem_four_raises (var1 var2 : VariableIdentifier) (sign1 sign2 : Sign) (value : num)
  (o : OctagonLattice) :
  __setitem__ var__add__ (Index4 var1 sign1 var2 sign2) value o = (Raise TypeError, o).
Proof. reflexivity. Qed.

Lemma get_lb_raises (var : VariableIdentifier) (o : OctagonLattice) :
  get_lb var__add__ var o = (Raise TypeError, o).
Proof. reflexivity. Qed.

Lemma get_ub_raises (var : VariableIdentifier) (o : OctagonLattice) :
  get_ub var__add__ var o = (Raise TypeError, o).
Proof. reflexivity. Qed.

Lemma set_lb_raises (var : VariableIdentifier) (constant : num) (o : OctagonLattice) :
  set_lb var__add__ var constant o = (Raise TypeError, o).
Proof. reflexivity. Qed.

Lemma set_ub_raises (var : VariableIdentifier) (constant : num) (o : OctagonLattice) :
  set_ub var__add__ var constant o = (Raise TypeError, o).
Proof. reflexivity. Qed.

(** [set_interval] passes one argument to [set_lb(var, constant)]: the call
    raises before anything is written. *)
Lemma set_interval_raises (var : VariableIdentifier) (interval : interval_or_int) (o : OctagonLattice) :
  set_interval var__add__ var interval o = (Raise TypeError, o).
Proof. destruct interval; reflexivity. Qed.

(** ** Claims on the bound accessors *)

(** C1 (the code departs from it).  Writing a lower bound and reading it
    back does not return the constant: on every octagon, for every variable
    and constant, [set_lb] raises [TypeError] and writes nothing, and
    [get_lb] raises [TypeError] as well, whether it runs after the failed
    write or on its own; the same holds for [set_ub] and [get_ub]. *)
Theorem bound_round_trip_raises (o : OctagonLattice) (v : VariableIdentifier) (c : num) :
  set_lb var__add__ v c o = (Raise TypeError, o) /\
  get_lb var__add__ v (snd (set_lb var__add__ v c o)) = (Raise TypeError, o) /\
  bind (set_lb var__add__ v c) (fun _ => get_lb var__add__ v) o = (Raise TypeError, o) /\
  set_ub var__add__ v c o = (Raise TypeError, o) /\
  get_ub var__add__ v (snd (set_ub var__add__ v c o)) = (Raise TypeError, o) /\
  bind (set_ub var__add__ v c) (fun _ => get_ub var__add__ v) o = (Raise TypeError, o).
Proof. repeat split. Qed.

(** C2 (the code departs from it).  For every four-element index tuple
    [__setitem__] raises [TypeError] while it computes the first matrix
    index, at the call [_index_shift(sign1)]: the off-diagonal write the
    branch is written for is never performed, and the [ValueError] of the
    [else] clause is never reached.  So [set_lb], [set_ub] and
    [set_octagonal_constraint] raise [TypeError] on every input and leave
    the octagon as it was. *)
Theorem setitem_four_raises_before_write (o : OctagonLattice) (var1 var2 : VariableIdentifier)
  (sign1 sign2 : Sign) (value : num) :
  __setitem__ var__add__ (Index4 var1 sign1 var2 sign2) value o = (Raise TypeError, o) /\
  set_lb var__add__ var1 value o = (Raise TypeError, o) /\
  set_ub var__add__ var1 value o = (Raise TypeError, o) /\
  set_octagonal_constraint var__add__ sign1 var1 sign2 var2 value o = (Raise TypeError, o).
Proof.
  repeat split. destruct sign1; reflexivity.
Qed.

(** ** Claims on the lattice operations *)

(** [_less_equal], [_meet] and [_join] compare the sizes first and raise
    [ValueError] on a mismatch, leaving both operands as they were. *)
Lemma size_guard (self other : OctagonLattice) :
  CDBM.size (dbm self) <> CDBM.size (dbm other) ->
  _less_equal other self = (Raise ValueError, self) /\
  _meet other self = (Raise ValueError, self) /\
  _join close (self, other) = (Raise ValueError, (self, other)).
Proof.
  intros Hne. unfold _less_equal, _meet, _join.
  destruct (decide (CDBM.size (dbm self) ≠ CDBM.size (dbm other))); [auto | contradiction].
Qed.

(** [_widening] has no such guard: it is the matrix's [zip] and nothing else. *)
Lemma widening_is_zip (self other : OctagonLattice) :
  _widening other self = on_dbm (CDBM.zip_with_dbm (dbm other) widening_rule) self.
Proof. reflexivity. Qed.


(** C4 (the code departs from it).  After [top()], [is_top()] returns true
    only on an octagon without entries (no variables); on every other
    octagon it raises [TypeError], because it subscripts a bound where the
    position was meant. *)
Theorem top_then_is_top (o : OctagonLattice) :
  fst (bind top (fun _ => is_top) o)
  = match CDBM.items (dbm o) with [] => Ok true | _ :: _ => Raise TypeError end.
Proof.
  unfold bind.
  pose proof (top_shape o) as [Hs Hl].
  pose proof (top_ok o) as Hok.
  destruct (top o) as [r o']; simpl in *. subst r.
  rewrite is_top_outcome. simpl.
  apply match_nil_length. rewrite !items_length, Hs, Hl. reflexivity.
Qed.

End OctagonProperties.

(** ** The lattice order *)

Lemma forallb_le_antisym (l l' : list num) :
  length l = length l' ->
  forallb (fun '(x, y) => num_le x y) (zip l l') = true ->
  forallb (fun '(x, y) => num_le x y) (zip l' l) = true ->
  l = l'.
Proof.
  revert l'. induction l as [|a l IH]; intros [|b l'] Hlen H1 H2; simpl in *; try discriminate.
  - reflexivity.
  - apply andb_true_iff in H1 as [Hab H1], H2 as [Hba H2].
    f_equal; [apply num_le_antisym; assumption | apply IH; auto].
Qed.

(** What [_less_equal] returning true says of the cells. *)
Lemma less_equal_true (self other : OctagonLattice) :
  _less_equal other self = (Ok true, self) ->
  CDBM.size (dbm self) = CDBM.size (dbm other) /\
  forallb (fun '(x, y) => num_le x y) (zip (CDBM.cells (dbm self)) (CDBM.cells (dbm other))) = true.
Proof.
  unfold _less_equal, CDBM.values.
  destruct (decide (CDBM.size (dbm self) ≠ CDBM.size (dbm other))) as [Hne|Heq]; [discriminate|].
  intros H. injection H as H.
  split; [destruct (decide (CDBM.size (dbm self) = CDBM.size (dbm other))); [assumption|contradiction] | exact H].
Qed.

(** C7.  The order is antisymmetric: two octagons with one bound per
    position, each below the other by [_less_equal], hold the same matrix,
    bound for bound. *)
Theorem less_equal_antisymmetric (a b : OctagonLattice) :
  CDBM.wf (dbm a) -> CDBM.wf (dbm b) ->
  _less_equal b a = (Ok true, a) ->
  _less_equal a b = (Ok true, b) ->
  dbm a = dbm b /\ forall i j, CDBM.get (dbm a) i j = CDBM.get (dbm b) i j.
Proof.
  intros Ha Hb Hab Hba.
  apply less_equal_true in Hab as [Hsize Hab], Hba as [_ Hba].
  assert (dbm a = dbm b) as Heq.
  { unfold CDBM.wf in Ha, Hb.
    assert (CDBM.cells (dbm a) = CDBM.cells (dbm b)) as Hcells
      by (apply forallb_le_antisym; [congruence | assumption | assumption]).
    destruct (dbm a), (dbm b); simpl in *; congruence. }
  split; [exact Heq | intros i j; rewrite Heq; reflexivity].
Qed.

(** ** Widening *)

(** On operands of one size the widening returns normally; it keeps the
    size, and each cell follows the rule of the lambda. *)
Lemma widening_same_size (self other : OctagonLattice) :
  CDBM.wf (dbm self) -> CDBM.wf (dbm other) -> CDBM.size (dbm self) = CDBM.size (dbm other) ->
  _widening other self
  = (Ok tt, mkOctagon (_variables_list self) (_var_to_index self) (_index_to_var self)
              (CDBM.mk (CDBM.size (dbm self))
                       (zip_with widening_rule (CDBM.cells (dbm self)) (CDBM.cells (dbm other))))).
Proof.
  intros Hs Ho Hsize. unfold _widening, on_dbm.
  rewrite zip_with_dbm_same_size by assumption. reflexivity.
Qed.

(** A step of the rule never adds a constraint, and removes one whenever it
    changes the cells. *)
Lemma widening_rule_constrained (l l' : list num) :
  length l = length l' ->
  length (filter (fun b => b ≠ inf) (zip_with widening_rule l l')) <= length (filter (fun b => b ≠ inf) l) /\
  (zip_with widening_rule l l' <> l ->
   length (filter (fun b => b ≠ inf) (zip_with widening_rule l l')) < length (filter (fun b => b ≠ inf) l)).
Proof.
  revert l'. induction l as [|a l IH]; intros [|b l'] Hlen; simpl in *; try discriminate.
  - split; [lia | intros H; contradiction].
  - injection Hlen as Hlen. destruct (IH l' Hlen) as [Hle Hlt].
    rewrite !filter_cons.
    destruct (widening_rule_cases a b) as [Hw|Hw]; rewrite Hw.
    + destruct (decide (a ≠ inf)); simpl; (split; [lia|]);
        intros Hne; (assert (zip_with widening_rule l l' <> l) as Hne' by congruence);
        specialize (Hlt Hne'); lia.
    + destruct (decide (inf ≠ inf)) as [Hii|_]; [contradiction|].
      destruct (decide (a ≠ inf)) as [Hai|Hai]; simpl.
      * split; [lia | intros _; lia].
      * split; [lia|].
        intros Hne.
        assert (a = inf) as -> by (destruct (decide (a = inf)); [assumption|contradiction]).
        assert (zip_with widening_rule l l' <> l) as Hne' by congruence.
        specialize (Hlt Hne'). lia.
Qed.

(** Where [other] lies below [self] entry by entry, the rule changes nothing. *)
Lemma widening_rule_fixed (l l' : list num) :
  length l = length l' ->
  forallb (fun '(x, y) => num_le x y) (zip l' l) = true ->
  zip_with widening_rule l l' = l.
Proof.
  revert l'. induction l as [|a l IH]; intros [|b l'] Hlen H; simpl in *; try discriminate.
  - reflexivity.
  - apply andb_true_iff in H as [Hba H].
    rewrite widening_rule_stable by exact Hba.
    f_equal. apply IH; [lia | exact H].
Qed.

Lemma forallb_le_trans (l1 l2 l3 : list num) :
  length l1 = length l2 -> length l2 = length l3 ->
  forallb (fun '(x, y) => num_le x y) (zip l1 l2) = true ->
  forallb (fun '(x, y) => num_le x y) (zip l2 l3) = true ->
  forallb (fun '(x, y) => num_le x y) (zip l1 l3) = true.
Proof.
  revert l2 l3. induction l1 as [|a l1 IH]; intros [|b l2] [|c l3] H12 H23 Hab Hbc;
    simpl in *; try discriminate; try reflexivity.
  apply andb_true_iff in Hab as [Hab Hab'], Hbc as [Hbc Hbc'].
  apply andb_true_iff. split; [eapply num_le_trans; eassumption|].
  eapply IH with (l2 := l2); auto.
Qed.

Lemma num_le_refl_r (a b : num) : num_le a b = true -> num_le b b = true.
Proof.
  destruct a as [p| | |], b as [q| | |]; simpl; try discriminate; try reflexivity;
    intros _; apply bool_decide_eq_true; apply Qcle_refl.
Qed.

Lemma forallb_le_refl_r (l l' : list num) :
  length l = length l' ->
  forallb (fun '(x, y) => num_le x y) (zip l l') = true ->
  forallb (fun '(x, y) => num_le x y) (zip l' l') = true.
Proof.
  revert l'. induction l as [|a l IH]; intros [|b l'] Hlen H; simpl in *; try discriminate.
  - reflexivity.
  - apply andb_true_iff in H as [Hab H].
    rewrite (num_le_refl_r a b Hab). simpl. apply IH; [lia | exact H].
Qed.

(** The operand of a step lies below its result, entry by entry. *)
Lemma zip_widening_above_other (l l' : list num) :
  length l = length l' ->
  forallb (fun '(x, y) => num_le x y) (zip l' l') = true ->
  forallb (fun '(x, y) => num_le x y) (zip l' (zip_with widening_rule l l')) = true.
Proof.
  revert l'. induction l as [|a l IH]; intros [|b l'] Hlen H; simpl in *; try discriminate.
  - reflexivity.
  - apply andb_true_iff in H as [Hb H].
    rewrite IH by (try lia; exact H).
    unfold widening_rule, num_ge.
    destruct (num_le b a) eqn:Hba; [rewrite Hba; reflexivity|].
    destruct b; simpl in *; try discriminate; reflexivity.
Qed.

(** Where a step changes nothing, the operand lies below the receiver. *)
Lemma zip_widening_fixed_below (l l' : list num) :
  length l = length l' ->
  zip_with widening_rule l l' = l ->
  forallb (fun '(x, y) => num_le x y) (zip l' l') = true ->
  forallb (fun '(x, y) => num_le x y) (zip l' l) = true.
Proof.
  revert l'. induction l as [|a l IH]; intros [|b l'] Hlen Hfix H; simpl in *; try discriminate.
  - reflexivity.
  - injection Hfix as Ha Hfix.
    apply andb_true_iff in H as [Hb H].
    rewrite IH by (try lia; assumption).
    unfold widening_rule, num_ge in Ha.
    destruct (num_le b a) eqn:Hba; [reflexivity|].
    subst a. destruct b; simpl in *; try discriminate; reflexivity.
Qed.

Section WideningIteration.

(** A sequence of octagons over one set of variables: every matrix has one
    bound per position and the size [n]. *)
Variable A : nat -> OctagonLattice.
Variable n : nat.
Hypothesis A_shape : forall k, CDBM.wf (dbm (A k)) /\ CDBM.size (dbm (A k)) = n.

Lemma iterate_shape (k : nat) :
  exists w, widening_iterates A k = Ok w /\ CDBM.wf (dbm w) /\ CDBM.size (dbm w) = n.
Proof.
  induction k as [|k (w & Hw & Hwf & Hsize)].
  - exists (A 0). split; [reflexivity | apply A_shape].
  - destruct (A_shape (S k)) as [Hwf' Hsize'].
    exists (widening_step A k w). simpl. rewrite Hw. simpl.
    rewrite widening_same_size by (try assumption; congruence).
    split; [reflexivity|].
    unfold widening_step, with_dbm, CDBM.wf in *. simpl.
    split; [|exact Hsize].
    rewrite length_zip_with. lia.
Qed.

Lemma iterate_step (k : nat) (w : OctagonLattice) :
  widening_iterates A k = Ok w -> widening_iterates A (S k) = Ok (widening_step A k w).
Proof.
  intros Hw.
  destruct (iterate_shape k) as (w0 & Hw0 & Hwf & Hsize).
  assert (w0 = w) as -> by congruence.
  destruct (A_shape (S k)) as [Hwf' Hsize'].
  simpl. rewrite Hw. simpl.
  rewrite widening_same_size by (try assumption; congruence).
  reflexivity.
Qed.

Lemma step_unchanged (k : nat) (w : OctagonLattice) :
  zip_with widening_rule (CDBM.cells (dbm w)) (CDBM.cells (dbm (A (S k)))) = CDBM.cells (dbm w) ->
  widening_step A k w = w.
Proof.
  intros H. unfold widening_step, with_dbm. rewrite H.
  destruct w as [vs v2i i2v [sz cs]]. reflexivity.
Qed.

(** Every change of the iterate removes a constraint for good: the changes
    so far and the constraints left never exceed the [n * n] entries. *)
Lemma changes_bound (K : nat) (w : OctagonLattice) :
  widening_iterates A K = Ok w ->
  length (filter (fun k => widening_iterates A (S k) <> widening_iterates A k) (seq 0 K))
  + constrained (dbm w) <= n * n.
Proof.
  revert w. induction K as [|K IH]; intros w Hw.
  - simpl in *. injection Hw as <-.
    destruct (A_shape 0) as [Hwf Hsize]. unfold CDBM.wf in Hwf.
    unfold constrained.
    pose proof (length_filter (fun b : num => b ≠ inf) (CDBM.cells (dbm (A 0)))).
    rewrite Hsize in Hwf. lia.
  - destruct (iterate_shape K) as (w0 & Hw0 & Hwf & Hsize).
    specialize (IH w0 Hw0).
    pose proof (iterate_step K w0 Hw0) as Hstep.
    assert (w = widening_step A K w0) as -> by congruence.
    destruct (A_shape (S K)) as [Hwf' Hsize'].
    assert (length (CDBM.cells (dbm w0)) = length (CDBM.cells (dbm (A (S K))))) as Hlen
      by (unfold CDBM.wf in *; congruence).
    destruct (widening_rule_constrained _ _ Hlen) as [Hle Hlt].
    rewrite seq_S, filter_app, length_app, Nat.add_0_l, filter_cons, filter_nil.
    unfold constrained in *.
    change (CDBM.cells (dbm (widening_step A K w0)))
      with (zip_with widening_rule (CDBM.cells (dbm w0)) (CDBM.cells (dbm (A (S K))))).
    destruct (decide (widening_iterates A (S K) <> widening_iterates A K)) as [Hne|Heq];
      cbn [length].
    + assert (zip_with widening_rule (CDBM.cells (dbm w0)) (CDBM.cells (dbm (A (S K))))
              <> CDBM.cells (dbm w0)) as Hcells.
      { intros Hc. apply Hne. rewrite Hstep, Hw0. f_equal. apply step_unchanged. exact Hc. }
      specialize (Hlt Hcells). lia.
    + lia.
Qed.

(** Along a tightening sequence every later element lies below the first. *)
Lemma tightening_below_first :
  (forall k, _less_equal (A k) (A (S k)) = (Ok true, A (S k))) ->
  forall k, forallb (fun '(x, y) => num_le x y)
                    (zip (CDBM.cells (dbm (A (S k)))) (CDBM.cells (dbm (A 0)))) = true.
Proof.
  intros Htight k. induction k as [|k IH].
  - apply (less_equal_true _ _ (Htight 0)).
  - destruct (less_equal_true _ _ (Htight (S k))) as [_ Hle].
    pose proof (A_shape 0) as [H0 S0]. pose proof (A_shape (S k)) as [H1 S1].
    pose proof (A_shape (S (S k))) as [H2 S2].
    unfold CDBM.wf in *.
    eapply forallb_le_trans with (l2 := CDBM.cells (dbm (A (S k)))); try assumption; congruence.
Qed.

Lemma tightening_fixed :
  (forall k, _less_equal (A k) (A (S k)) = (Ok true, A (S k))) ->
  forall k, widening_iterates A k = Ok (A 0).
Proof.
  intros Htight k. induction k as [|k IH].
  - reflexivity.
  - rewrite (iterate_step k (A 0) IH). f_equal.
    apply step_unchanged.
    pose proof (A_shape 0) as [H0 S0]. pose proof (A_shape (S k)) as [H1 S1].
    apply widening_rule_fixed; [unfold CDBM.wf in *; congruence|].
    apply tightening_below_first. exact Htight.
Qed.

(** The rule at one entry of one step. *)
Lemma iterate_entry (k : nat) (w : OctagonLattice) (i j : nat) (a b : num) :
  widening_iterates A k = Ok w ->
  CDBM.get (dbm w) i j = Ok a ->
  CDBM.get (dbm (A (S k))) i j = Ok b ->
  exists w', widening_iterates A (S k) = Ok w' /\
             CDBM.get (dbm w') i j = Ok (if num_le b a then a else inf).
Proof.
  intros Hw Ha Hb.
  destruct (iterate_shape k) as (w0 & Hw0 & Hwf & Hsize).
  assert (w0 = w) as -> by congruence.
  destruct (A_shape (S k)) as [Hwf' Hsize'].
  exists (widening_step A k w). split; [apply iterate_step; exact Hw|].
  unfold widening_step, with_dbm, CDBM.get, CDBM.in_range, dbm in *. simpl.
  destruct ((i <? CDBM.size (_dbm w)) && (j <? CDBM.size (_dbm w))) eqn:Hin; [|discriminate].
  rewrite Hsize', <- Hsize in Hb. unfold dbm in Hb. rewrite Hin in Hb.
  destruct (CDBM.cells (_dbm w) !! (i * CDBM.size (_dbm w) + j)) as [a'|] eqn:Ea; [|discriminate].
  destruct (CDBM.cells (_dbm (A (S k))) !! (i * CDBM.size (_dbm w) + j)) as [b'|] eqn:Eb;
    [|discriminate].
  injection Ha as ->. injection Hb as ->.
  rewrite lookup_zip_with, Ea. simpl. rewrite Eb. simpl.
  reflexivity.
Qed.

(** After a step the operand of that step lies below the iterate. *)
Lemma iterate_above (k : nat) (w : OctagonLattice) :
  widening_iterates A (S k) = Ok w ->
  forallb (fun '(x, y) => num_le x y)
          (zip (CDBM.cells (dbm (A (S k)))) (CDBM.cells (dbm (A (S k))))) = true ->
  forallb (fun '(x, y) => num_le x y)
          (zip (CDBM.cells (dbm (A (S k)))) (CDBM.cells (dbm w))) = true.
Proof.
  intros Hw Hrefl.
  destruct (iterate_shape k) as (w0 & Hw0 & Hwf & Hsize).
  rewrite (iterate_step k w0 Hw0) in Hw. injection Hw as <-.
  destruct (A_shape (S k)) as [Hwf' Hsize'].
  unfold widening_step, with_dbm, dbm. simpl.
  apply zip_widening_above_other; [unfold CDBM.wf, dbm in *; congruence | exact Hrefl].
Qed.

(** Once the sequence tightens for good, the iterate stays where it is. *)
Lemma tightening_from (m : nat) :
  (forall k, m <= k -> _less_equal (A k) (A (S k)) = (Ok true, A (S k))) ->
  forall j, m <= j -> widening_iterates A j = widening_iterates A m.
Proof.
  intros Htight.
  destruct (iterate_shape m) as (wm & Hwm & Hwfm & Hsizem).
  assert (forall k, length (CDBM.cells (dbm (A k))) = n * n) as Hlen.
  { intros k. destruct (A_shape k) as [Hwf Hs]. unfold CDBM.wf in Hwf. rewrite Hwf, Hs. reflexivity. }
  assert (length (CDBM.cells (dbm wm)) = n * n) as Hlenm
    by (unfold CDBM.wf in Hwfm; rewrite Hwfm, Hsizem; reflexivity).
  assert (forall d, forallb (fun '(x, y) => num_le x y)
                      (zip (CDBM.cells (dbm (A (S (m + d))))) (CDBM.cells (dbm wm))) = true)
    as Hbelow.
  { induction d as [|d IH].
    - rewrite Nat.add_0_r.
      destruct (less_equal_true _ _ (Htight m (le_n m))) as [_ Hle].
      destruct m as [|m'].
      + simpl in Hwm. injection Hwm as <-. exact Hle.
      + apply (forallb_le_trans _ (CDBM.cells (dbm (A (S m')))) _); try congruence.
        apply iterate_above; [exact Hwm|].
        apply (forallb_le_refl_r (CDBM.cells (dbm (A (S (S m')))))); [congruence | exact Hle].
    - destruct (less_equal_true _ _ (Htight (S (m + d)) ltac:(lia))) as [_ Hle].
      replace (m + S d) with (S (m + d)) by lia.
      apply (forallb_le_trans _ (CDBM.cells (dbm (A (S (m + d))))) _); try congruence. }
  assert (forall d, widening_iterates A (m + d) = Ok wm) as Hfix.
  { induction d as [|d IH].
    - rewrite Nat.add_0_r. exact Hwm.
    - replace (m + S d) with (S (m + d)) by lia.
      rewrite (iterate_step (m + d) wm IH). f_equal.
      apply step_unchanged.
      apply widening_rule_fixed; [congruence | apply Hbelow]. }
  intros j Hj. replace j with (m + (j - m)) by lia.
  rewrite Hfix, Hwm. reflexivity.
Qed.

End WideningIteration.

Section WideningLoop.

(** The loop of a fixpoint computation: the operand of each round is [F]
    of the current iterate.  [F] keeps the size [n] and yields bounds that
    compare to themselves. *)
Variable F : OctagonLattice -> OctagonLattice.
Variable n : nat.
Variable start : OctagonLattice.
Hypothesis start_shape : CDBM.wf (dbm start) /\ CDBM.size (dbm start) = n.
Hypothesis F_shape : forall w, CDBM.wf (dbm w) -> CDBM.size (dbm w) = n ->
  CDBM.wf (dbm (F w)) /\ CDBM.size (dbm (F w)) = n /\ _less_equal (F w) (F w) = (Ok true, F w).

Lemma loop_shape (k : nat) :
  exists w, widening_loop F start k = Ok w /\ CDBM.wf (dbm w) /\ CDBM.size (dbm w) = n /\
            widening_loop F start (S k) = Ok (widen_by F w).
Proof.
  induction k as [|k (w & Hw & Hwf & Hsize & Hnext)].
  - exists start. destruct start_shape as [Hwf Hsize].
    destruct (F_shape start Hwf Hsize) as (Hwf' & Hsize' & _).
    split; [reflexivity|]. split; [exact Hwf|]. split; [exact Hsize|].
    simpl. rewrite widening_same_size by (try assumption; congruence). reflexivity.
  - exists (widen_by F w).
    assert (CDBM.wf (dbm (widen_by F w)) /\ CDBM.size (dbm (widen_by F w)) = n) as [Hwf1 Hsize1].
    { destruct (F_shape w Hwf Hsize) as (Hwf' & Hsize' & _).
      unfold widen_by, with_dbm, CDBM.wf, dbm in *. simpl.
      split; [|exact Hsize]. rewrite length_zip_with. lia. }
    split; [exact Hnext|]. split; [exact Hwf1|]. split; [exact Hsize1|].
    destruct (F_shape _ Hwf1 Hsize1) as (Hwf' & Hsize' & _).
    change (widening_loop F start (S (S k)))
      with (res_bind (widening_loop F start (S k)) (fun w =>
              match _widening (F w) w with
              | (Ok _, w') => Ok w'
              | (Raise e, _) => Raise e
              end)).
    rewrite Hnext. simpl.
    rewrite widening_same_size by (try assumption; congruence). reflexivity.
Qed.

Lemma widen_by_unchanged (w : OctagonLattice) :
  zip_with widening_rule (CDBM.cells (dbm w)) (CDBM.cells (dbm (F w))) = CDBM.cells (dbm w) ->
  widen_by F w = w.
Proof.
  intros H. unfold widen_by, with_dbm. rewrite H.
  destruct w as [vs v2i i2v [sz cs]]. reflexivity.
Qed.

(** A round that changes the iterate removes a constraint, so within as
    many rounds as there are constraints one round changes nothing. *)
Lemma loop_settles (m k : nat) (w : OctagonLattice) :
  widening_loop F start k = Ok w ->
  constrained (dbm w) <= m ->
  exists j w', j <= m /\ widening_loop F start (k + j) = Ok w' /\
               widening_loop F start (S (k + j)) = Ok w'.
Proof.
  revert k w. induction m as [|m IH]; intros k w Hw Hm.
  - destruct (loop_shape k) as (w0 & Hw0 & Hwf & Hsize & Hnext).
    assert (w0 = w) as -> by congruence.
    destruct (F_shape w Hwf Hsize) as (Hwf' & Hsize' & _).
    assert (length (CDBM.cells (dbm w)) = length (CDBM.cells (dbm (F w)))) as Hlen
      by (unfold CDBM.wf in *; congruence).
    destruct (widening_rule_constrained _ _ Hlen) as [_ Hlt].
    exists 0, w. rewrite Nat.add_0_r. split; [lia|]. split; [exact Hw|].
    rewrite Hnext. f_equal. apply widen_by_unchanged.
    destruct (decide (zip_with widening_rule (CDBM.cells (dbm w)) (CDBM.cells (dbm (F w)))
                      = CDBM.cells (dbm w))) as [Heq|Hne]; [exact Heq|].
    specialize (Hlt Hne). unfold constrained in Hm. lia.
  - destruct (loop_shape k) as (w0 & Hw0 & Hwf & Hsize & Hnext).
    assert (w0 = w) as -> by congruence.
    destruct (F_shape w Hwf Hsize) as (Hwf' & Hsize' & _).
    assert (length (CDBM.cells (dbm w)) = length (CDBM.cells (dbm (F w)))) as Hlen
      by (unfold CDBM.wf in *; congruence).
    destruct (widening_rule_constrained _ _ Hlen) as [_ Hlt].
    destruct (decide (zip_with widening_rule (CDBM.cells (dbm w)) (CDBM.cells (dbm (F w)))
                      = CDBM.cells (dbm w))) as [Heq|Hne].
    + exists 0, w. rewrite Nat.add_0_r. split; [lia|]. split; [exact Hw|].
      rewrite Hnext. f_equal. apply widen_by_unchanged. exact Heq.
    + specialize (Hlt Hne).
      destruct (IH (S k) (widen_by F w) Hnext) as (j & w' & Hj & H1 & H2).
      { unfold constrained in *. unfold widen_by, with_dbm, dbm in *. simpl. lia. }
      exists (S j), w'. split; [lia|].
      replace (k + S j) with (S k + j) by lia. split; assumption.
Qed.

(** A round that changes nothing is repeated for ever. *)
Lemma loop_fixed (k : nat) (w : OctagonLattice) :
  widening_loop F start k = Ok w ->
  widening_loop F start (S k) = Ok w ->
  forall j, k <= j -> widening_loop F start j = Ok w.
Proof.
  intros Hw Hnext.
  assert (forall d, widening_loop F start (k + d) = Ok w) as Hall.
  { induction d as [|d IH]; [rewrite Nat.add_0_r; exact Hw|].
    replace (k + S d) with (S (k + d)) by lia.
    destruct (loop_shape (k + d)) as (w0 & Hw0 & _ & _ & Hn0).
    assert (w0 = w) as -> by congruence.
    destruct (loop_shape k) as (w1 & Hw1 & _ & _ & Hn1).
    assert (w1 = w) as -> by congruence.
    congruence. }
  intros j Hj. replace j with (k + (j - k)) by lia. apply Hall.
Qed.

(** At a round that changes nothing the operand is below the iterate:
    [_less_equal] reports that the loop has stabilised. *)
Lemma loop_stable (k : nat) (w : OctagonLattice) :
  widening_loop F start k = Ok w ->
  widening_loop F start (S k) = Ok w ->
  _less_equal w (F w) = (Ok true, F w).
Proof.
  intros Hw Hnext.
  destruct (loop_shape k) as (w0 & Hw0 & Hwf & Hsize & Hn0).
  assert (w0 = w) as -> by congruence.
  destruct (F_shape w Hwf Hsize) as (Hwf' & Hsize' & Hrefl).
  apply less_equal_true in Hrefl as [_ Hrefl].
  assert (widen_by F w = w) as Heq by congruence.
  assert (zip_with widening_rule (CDBM.cells (dbm w)) (CDBM.cells (dbm (F w)))
          = CDBM.cells (dbm w)) as Hcells.
  { unfold widen_by, with_dbm in Heq.
    destruct w as [vs v2i i2v [sz cs]]. simpl in *. congruence. }
  unfold _less_equal, CDBM.values.
  destruct (decide (CDBM.size (dbm (F w)) ≠ CDBM.size (dbm w))) as [Hne|_]; [congruence|].
  assert (length (CDBM.cells (dbm w)) = length (CDBM.cells (dbm (F w)))) as Hlen
    by (unfold CDBM.wf in *; congruence).
  rewrite (zip_widening_fixed_below _ _ Hlen Hcells Hrefl).
  reflexivity.
Qed.

End WideningLoop.

(** C8.  Iterated widening settles, for the reason the claim gives.
    Along any sequence of octagons of size [n]:
    every iterate is defined;
    at each step an entry whose new bound exceeds the current one is set
    to [inf] and every other entry is kept;
    the iterate changes at no more than [n * n] steps;
    once the sequence tightens for good (each element below its
    predecessor by [_less_equal]) the iterate stays where it is, so along
    a sequence that tightens from the start the iterates are at a fixed
    point from some step [k <= n * n] on.
    In the loop of a fixpoint computation, where each operand is computed
    from the current iterate, a fixed point is reached within [n * n]
    rounds; it is kept for ever, and [_less_equal] reports the operand
    below it. *)
Theorem widening_converges (A : nat -> OctagonLattice) (n : nat) :
  (forall k, CDBM.wf (dbm (A k)) /\ CDBM.size (dbm (A k)) = n) ->
  (forall k, exists w, widening_iterates A k = Ok w) /\
  (forall k w i j a b,
     widening_iterates A k = Ok w ->
     CDBM.get (dbm w) i j = Ok a ->
     CDBM.get (dbm (A (S k))) i j = Ok b ->
     exists w', widening_iterates A (S k) = Ok w' /\
                CDBM.get (dbm w') i j = Ok (if num_le b a then a else inf)) /\
  (forall K, length (filter (fun k => widening_iterates A (S k) <> widening_iterates A k) (seq 0 K))
             <= n * n) /\
  (forall m, (forall k, m <= k -> _less_equal (A k) (A (S k)) = (Ok true, A (S k))) ->
     forall j, m <= j -> widening_iterates A j = widening_iterates A m) /\
  ((forall k, _less_equal (A k) (A (S k)) = (Ok true, A (S k))) ->
   exists k, k <= n * n /\ forall j, k <= j -> widening_iterates A j = widening_iterates A k) /\
  (forall F start,
     CDBM.wf (dbm start) /\ CDBM.size (dbm start) = n ->
     (forall w, CDBM.wf (dbm w) -> CDBM.size (dbm w) = n ->
        CDBM.wf (dbm (F w)) /\ CDBM.size (dbm (F w)) = n /\
        _less_equal (F w) (F w) = (Ok true, F w)) ->
     exists k w, k <= n * n /\
       widening_loop F start k = Ok w /\
       (forall j, k <= j -> widening_loop F start j = Ok w) /\
       _less_equal w (F w) = (Ok true, F w)).
Proof.
  intros A_shape.
  split; [|split; [|split; [|split; [|split]]]].
  - intros k. destruct (iterate_shape A n A_shape k) as (w & Hw & _). eauto.
  - intros k w i j a b. apply (iterate_entry A n A_shape).
  - intros K. destruct (iterate_shape A n A_shape K) as (w & Hw & _).
    pose proof (changes_bound A n A_shape K w Hw). lia.
  - intros m. apply (tightening_from A n A_shape).
  - intros Htight. exists 0. split; [lia|].
    intros j Hj. apply (tightening_from A n A_shape 0); [intros k _; apply Htight | exact Hj].
  - intros F start Hstart HF.
    destruct (loop_settles F n start Hstart HF (n * n) 0 start eq_refl) as (j & w & Hj & H1 & H2).
    { destruct Hstart as [Hwf Hsize]. unfold constrained, CDBM.wf in *.
      pose proof (length_filter (fun b : num => b ≠ inf) (CDBM.cells (dbm start))).
      rewrite Hsize in Hwf. lia. }
    simpl in H1, H2.
    exists j, w. split; [exact Hj|]. split; [exact H1|].
    split; [apply (loop_fixed F n start Hstart HF j w H1 H2)
           | apply (loop_stable F n start Hstart HF j w H1 H2)].
Qed.

(** ** What [forget] can reach *)

(** [__init__] hands out even indices only: the dictionary never holds the
    index of a negative occurrence. *)
Lemma init_maps_even (variables : list VariableIdentifier) (v : VariableIdentifier) (k : nat) :
  (init_maps variables).1.1 !! v = Some k -> Nat.even k = true.
Proof.
  unfold init_maps.
  assert (forall (acc : gmap VariableIdentifier nat * gmap nat VariableIdentifier * nat),
             Nat.even acc.2 = true ->
             (forall v k, acc.1.1 !! v = Some k -> Nat.even k = true) ->
             forall v k,
               (fold_left (fun '(v2i, i2v, index) var =>
                             (<[var := index]> v2i, <[S index := var]> (<[index := var]> i2v), index + 2))
                          variables acc).1.1 !! v = Some k -> Nat.even k = true) as Hgen.
  { induction variables as [|var vars IH]; intros [[v2i i2v] index] Hidx Hacc v' k'; simpl in *.
    - apply Hacc.
    - apply IH; simpl.
      + rewrite Nat.add_comm. simpl. exact Hidx.
      + intros v0 k0 Hlook.
        apply lookup_insert_Some in Hlook as [[_ <-]|[_ Hlook]]; [exact Hidx | eapply Hacc; exact Hlook]. }
  apply Hgen; simpl; [reflexivity|].
  intros v0 k0 Hlook. rewrite lookup_empty in Hlook. discriminate.
Qed.

(** A view of the state that every step of a computation preserves is
    preserved by the computation. *)
Lemma bind_frame {S A B T} (f : S -> T) (m : M S A) (k : A -> M S B) (s : S) :
  (forall s, f (snd (m s)) = f s) -> (forall x s, f (snd (k x s)) = f s) ->
  f (snd (bind m k s)) = f s.
Proof.
  intros Hm Hk. unfold bind.
  specialize (Hm s). destruct (m s) as [[x|e] s']; simpl in *.
  - rewrite Hk. exact Hm.
  - exact Hm.
Qed.

Lemma for_each_frame {S X T} (f : S -> T) (body : X -> M S unit) (xs : list X) (s : S) :
  (forall x s, f (snd (body x s)) = f s) ->
  f (snd (for_each xs body s)) = f s.
Proof.
  intros Hbody. revert s. induction xs as [|x xs IH]; intros s; simpl.
  - reflexivity.
  - apply bind_frame; [apply Hbody | intros _ s'; apply IH].
Qed.

Lemma on_dbm_set_frame (i j : nat) (value : num) (a b : nat) (o : OctagonLattice) :
  (a, b) <> (i, j) -> view a b (snd (on_dbm (CDBM.set i j value) o)) = view a b o.
Proof.
  intros Hne. unfold view, on_dbm.
  pose proof (set_frame i j value (dbm o) a b Hne) as Hget.
  destruct (CDBM.set i j value (dbm o)) as [r d]. simpl in *. rewrite Hget. reflexivity.
Qed.

(** The loop of the two-element branch of [__setitem__] writes in row [k]
    and column [k] only. *)
Lemma clear_loop_frame (k : nat) (value : num) (a b : nat) (rows : list nat) (o : OctagonLattice) :
  a <> k -> b <> k ->
  view a b (snd (for_each rows
                   (fun i => if decide (i ≠ k)
                             then bind (on_dbm (CDBM.set i k value))
                                       (fun _ => on_dbm (CDBM.set k i value))
                             else ret tt) o))
  = view a b o.
Proof.
  intros Ha Hb.
  apply for_each_frame. intros i s.
  destruct (decide (i ≠ k)); [|reflexivity].
  apply bind_frame.
  - intros s'. apply on_dbm_set_frame. intros [= ? ?]; lia.
  - intros _ s'. apply on_dbm_set_frame. intros [= ? ?]; lia.
Qed.

Section ForgetFrame.

Variable var__add__ : VariableIdentifier -> pyval -> res (option VariableIdentifier).
Variable close : M CDBM.t unit.

(** A position is out of reach when neither of its coordinates is an index
    the dictionary holds. *)
Lemma setitem_two_frame (var : VariableIdentifier) (sign : Sign) (value : num)
  (a b : nat) (o : OctagonLattice) :
  (forall v k, _var_to_index o !! v = Some k -> a <> k /\ b <> k) ->
  view a b (snd (__setitem__ var__add__ (Index2 var sign) value o)) = view a b o.
Proof.
  intros Hout.
  unfold __setitem__, bind, ret, lift, var_to_index_lookup. simpl.
  destruct (var__add__ var (VSign sign)) as [[v'|]|e]; simpl; [|reflexivity|reflexivity].
  destruct (_var_to_index o !! v') as [k|] eqn:Hk; simpl; [|reflexivity].
  destruct (Hout v' k Hk) as [Ha Hb].
  apply clear_loop_frame; assumption.
Qed.

Lemma forget_frame (var : VariableIdentifier) (a b : nat) (o : OctagonLattice) :
  (forall v k, _var_to_index o !! v = Some k -> a <> k /\ b <> k) ->
  CDBM.get (dbm (snd (forget var__add__ close var o))) a b = CDBM.get (snd (close (dbm o))) a b.
Proof.
  intros Hout.
  unfold forget. unfold bind at 1. unfold on_dbm at 1.
  destruct (close (dbm o)) as [r d]. simpl.
  destruct r as [[]|e]; [|reflexivity].
  set (o1 := mkOctagon (_variables_list o) (_var_to_index o) (_index_to_var o) d).
  change (CDBM.get d a b) with (fst (view a b o1)).
  change (CDBM.get (dbm (snd (bind (__setitem__ var__add__ (Index2 var PLUS) inf)
                                   (fun _ => __setitem__ var__add__ (Index2 var MINUS) inf) o1))) a b)
    with (fst (view a b (snd (bind (__setitem__ var__add__ (Index2 var PLUS) inf)
                                   (fun _ => __setitem__ var__add__ (Index2 var MINUS) inf) o1)))).
  f_equal.
  assert (forall s, _var_to_index s = _var_to_index o ->
                    view a b (snd (__setitem__ var__add__ (Index2 var PLUS) inf s)) = view a b s) as H1.
  { intros s Hs. apply setitem_two_frame. rewrite Hs. exact Hout. }
  assert (forall s, _var_to_index s = _var_to_index o ->
                    view a b (snd (__setitem__ var__add__ (Index2 var MINUS) inf s)) = view a b s) as H2.
  { intros s Hs. apply setitem_two_frame. rewrite Hs. exact Hout. }
  unfold bind.
  specialize (H1 o1 eq_refl).
  destruct (__setitem__ var__add__ (Index2 var PLUS) inf o1) as [[[]|e] o2]; simpl in *; [|exact H1].
  rewrite H2; [exact H1|].
  unfold view in H1. injection H1 as _ H1. exact H1.
Qed.

End ForgetFrame.

Section DomainProperties.

Variable var__add__ : VariableIdentifier -> pyval -> res (option VariableIdentifier).
Variable close : M CDBM.t unit.
Variable evaluate_expression : Expression -> res IntervalLattice.t.

(** C9 (the code departs from it).  On an octagon over any list of
    variables, whatever its matrix, [forget] leaves every entry between two
    negative occurrences (odd row, odd column) as the closure left it,
    whatever [var + sign] evaluates to: the dictionary holds even indices
    only, so no negative index is ever cleared.  Afterwards [get_lb] and
    [get_ub] raise [TypeError] instead of reporting an unbounded variable. *)
Theorem forget_misses_negative_occurrences (variables : list VariableIdentifier) (d : CDBM.t)
  (v : VariableIdentifier) (i j : nat) :
  let o := with_dbm (OctagonLattice_init variables) d in
  let o' := snd (forget var__add__ close v o) in
  CDBM.get (dbm o') (2 * i + 1) (2 * j + 1) = CDBM.get (snd (close d)) (2 * i + 1) (2 * j + 1) /\
  get_lb var__add__ v o' = (Raise TypeError, o') /\
  get_ub var__add__ v o' = (Raise TypeError, o').
Proof.
  intros o o'. split; [|split; reflexivity].
  unfold o'. rewrite forget_frame.
  - unfold o, with_dbm, OctagonLattice_init.
    destruct (init_maps variables) as [[v2i i2v] idx]. reflexivity.
  - intros v0 k Hk.
    assert (Nat.even k = true) as Hev.
    { apply (init_maps_even variables v0).
      revert Hk. unfold o, with_dbm, OctagonLattice_init.
      destruct (init_maps variables) as [[v2i i2v] idx]. simpl. auto. }
    assert (Nat.even (2 * i + 1) = false) as Hi
      by (rewrite Nat.even_add, Nat.even_mul; reflexivity).
    assert (Nat.even (2 * j + 1) = false) as Hj
      by (rewrite Nat.even_add, Nat.even_mul; reflexivity).
    split; intros <-; congruence.
Qed.

(** C5 (the code departs from it).  When the right-hand side is an interval
    and no variable, the assignment to an integer variable ends in the
    state [forget] leaves: no bound of the interval is written, since
    [set_interval] raises [TypeError].  The assignment raises that
    [TypeError] when [forget] returned, and otherwise what [forget] raised
    ([ValueError] apart, which the handler turns into a printed line).
    Reading either bound afterwards raises [TypeError]. *)
Theorem assign_interval_writes_no_bound (o : OctagonLattice) (target : VariableIdentifier)
  (right : Expression) (form : SingleVarLinearForm) (interval : IntervalLattice.t) :
  typ target = TInt ->
  SingleVarLinearForm_init evaluate_expression right = Ok form ->
  _var form = None ->
  _interval form = Some interval ->
  _assign_variable var__add__ close evaluate_expression (Variable_ target) right o
  = (match fst (forget var__add__ close target o) with
     | Ok _ => Raise TypeError
     | Raise ValueError => Ok ["right is not in single variable linear form"%string]
     | Raise e => Raise e
     end, snd (forget var__add__ close target o)) /\
  fst (get_lb var__add__ target
         (snd (_assign_variable var__add__ close evaluate_expression (Variable_ target) right o)))
  = Raise TypeError /\
  fst (get_ub var__add__ target
         (snd (_assign_variable var__add__ close evaluate_expression (Variable_ target) right o)))
  = Raise TypeError.
Proof.
  intros Htyp Hform Hvar Hint.
  split; [|split; reflexivity].
  unfold _assign_variable.
  destruct (decide (typ target ≠ TInt)) as [Hne|_]; [contradiction|].
  unfold try_except_ValueError, bind at 1, lift. rewrite Hform, Hvar, Hint.
  unfold bind at 1.
  destruct (forget var__add__ close target o) as [[[]|e] o1]; simpl.
  - reflexivity.
  - destruct e; reflexivity.
Qed.

(** C6 (the code departs from it).  When the right-hand side is the target
    itself plus an interval, the assignment to an integer variable raises
    [TypeError] at the first read of a bound and leaves the octagon as it
    was: no bound is moved. *)
Theorem assign_increment_raises (o : OctagonLattice) (target : VariableIdentifier)
  (right : Expression) (form : SingleVarLinearForm) (interval : IntervalLattice.t) :
  typ target = TInt ->
  SingleVarLinearForm_init evaluate_expression right = Ok form ->
  _var form = Some target ->
  _interval form = Some interval ->
  _var_sign form = PLUS ->
  _assign_variable var__add__ close evaluate_expression (Variable_ target) right o
  = (Raise TypeError, o).
Proof.
  intros Htyp Hform Hvar Hint Hsign.
  unfold _assign_variable.
  destruct (decide (typ target ≠ TInt)) as [Hne|_]; [contradiction|].
  unfold try_except_ValueError, bind at 1, lift. rewrite Hform, Hvar, Hint, Hsign.
  destruct (decide (target = target)) as [_|Hne]; [|contradiction].
  reflexivity.
Qed.

(** C10.  When the right-hand side is not in single-variable linear form,
    that is, when building the form raises [ValueError], the assignment to
    an integer variable returns normally, prints one line, and leaves the
    octagon exactly as it was. *)
Theorem assign_extraction_failure_unchanged (o : OctagonLattice) (target : VariableIdentifier)
  (right : Expression) :
  typ target = TInt ->
  SingleVarLinearForm_init evaluate_expression right = Raise ValueError ->
  _assign_variable var__add__ close evaluate_expression (Variable_ target) right o
  = (Ok ["right is not in single variable linear form"%string], o).
Proof.
  intros Htyp Hform.
  unfold _assign_variable.
  destruct (decide (typ target ≠ TInt)) as [Hne|_]; [contradiction|].
  unfold try_except_ValueError, bind, lift. rewrite Hform. reflexivity.
Qed.

End DomainProperties.

(** * The claims on concrete inputs *)

Lemma num_le_int (a b : Z) : (a <= b)%Z -> num_le (int a) (int b) = true.
Proof.
  intros H. unfold num_le, int. apply bool_decide_eq_true.
  rewrite <- Z2Qc_inj_le. exact H.
Qed.

(** A run of the bound accessors.  Over [x] and [y], [set_lb(x, 5)] raises [TypeError] and
    leaves the octagon as built, and [get_lb(x)] raises [TypeError], even
    when adding to a variable hands back the variable. *)
Example set_lb_get_lb_run :
  set_lb same__add__ x (int 5) octagon_xy = (Raise TypeError, octagon_xy) /\
  get_lb same__add__ x octagon_xy = (Raise TypeError, octagon_xy) /\
  set_ub no__add__ x (int 5) octagon_xy = (Raise TypeError, octagon_xy) /\
  get_ub no__add__ x octagon_xy = (Raise TypeError, octagon_xy).
Proof. repeat split. Qed.

(** A run of the four-element write.  Over [x] and [y],
    [self[x, MINUS, x, PLUS] = 10] performs no write and does not raise
    [ValueError]: the octagon is left as built and the exception is the
    [TypeError] of the call [_index_shift(sign1)]. *)
Example setitem_four_is_TypeError :
  __setitem__ no__add__ (Index4 x MINUS x PLUS) (int 10) octagon_xy = (Raise TypeError, octagon_xy) /\
  __setitem__ same__add__ (Index4 x MINUS x PLUS) (int 10) octagon_xy = (Raise TypeError, octagon_xy) /\
  fst (__setitem__ same__add__ (Index4 x MINUS x PLUS) (int 10) octagon_xy) <> Raise ValueError.
Proof. repeat split. discriminate. Qed.

(** A run on different sizes, with the modelled [zip].  An octagon over
    [x] and one over [x] and [y] differ in size; [_less_equal], [_meet]
    and [_join] raise [ValueError] on them, and [_widening] does what the
    modelled [zip] does: it returns when the receiver is the smaller one
    and raises [IndexError] when it is the larger one. *)
Example widening_unequal_sizes_returns :
  CDBM.size (dbm octagon_x) <> CDBM.size (dbm octagon_xy) /\
  fst (_less_equal octagon_xy octagon_x) = Raise ValueError /\
  fst (_meet octagon_xy octagon_x) = Raise ValueError /\
  fst (_join CDBM.close_spec (octagon_x, octagon_xy)) = Raise ValueError /\
  fst (_widening octagon_xy octagon_x) = Ok tt /\
  fst (_widening octagon_x octagon_xy) = Raise IndexError.
Proof. repeat split. discriminate. Qed.

(** The three guards on the octagons over [x] and over [x] and [y]. *)
Lemma size_guard_witness :
  CDBM.size (dbm octagon_x) <> CDBM.size (dbm octagon_xy) /\
  _less_equal octagon_xy octagon_x = (Raise ValueError, octagon_x) /\
  _meet octagon_xy octagon_x = (Raise ValueError, octagon_x) /\
  _join CDBM.close_spec (octagon_x, octagon_xy) = (Raise ValueError, (octagon_x, octagon_xy)).
Proof.
  split; [discriminate|].
  apply (size_guard CDBM.close_spec octagon_x octagon_xy). discriminate.
Defined.


(** A run of [top()] and [is_top()].  Over [x], [top()] followed by [is_top()] raises
    [TypeError]; without variables it returns true. *)
Example top_then_is_top_run :
  fst (bind top (fun _ => is_top) octagon_x) = Raise TypeError /\
  fst (bind top (fun _ => is_top) (OctagonLattice_init [])) = Ok true.
Proof. split; reflexivity. Qed.

(** Assigning the literal [10] to [x]: [forget] returns, [set_interval]
    raises, and the octagon is the one [forget] left. *)
Lemma assign_interval_writes_no_bound_witness :
  typ x = TInt /\
  SingleVarLinearForm_init evaluate_spec literal_ten
  = Ok (mkForm PLUS None (Some (IntervalLattice.mk (int 10) (int 10)))) /\
  _assign_variable same__add__ CDBM.close_spec evaluate_spec (Variable_ x) literal_ten octagon_xy
  = (Raise TypeError, snd (forget same__add__ CDBM.close_spec x octagon_xy)).
Proof.
  split; [reflexivity|]. split; [reflexivity|].
  apply (assign_interval_writes_no_bound same__add__ CDBM.close_spec evaluate_spec octagon_xy x
           literal_ten (mkForm PLUS None (Some (IntervalLattice.mk (int 10) (int 10))))
           (IntervalLattice.mk (int 10) (int 10)) eq_refl eq_refl eq_refl eq_refl).
Defined.

(** Assigning [x + 1] to [x]. *)
Lemma assign_increment_raises_witness :
  typ x = TInt /\
  SingleVarLinearForm_init evaluate_spec x_plus_one
  = Ok (mkForm PLUS (Some x) (Some (IntervalLattice.mk (int 1) (int 1)))) /\
  _assign_variable same__add__ CDBM.close_spec evaluate_spec (Variable_ x) x_plus_one octagon_xy
  = (Raise TypeError, octagon_xy).
Proof.
  split; [reflexivity|]. split; [reflexivity|].
  apply (assign_increment_raises same__add__ CDBM.close_spec evaluate_spec octagon_xy x
           x_plus_one (mkForm PLUS (Some x) (Some (IntervalLattice.mk (int 1) (int 1))))
           (IntervalLattice.mk (int 1) (int 1)) eq_refl eq_refl eq_refl eq_refl eq_refl).
Defined.

(** An octagon compared with itself. *)
Lemma less_equal_antisymmetric_witness :
  CDBM.wf (dbm octagon_xy_binary) /\
  _less_equal octagon_xy_binary octagon_xy_binary = (Ok true, octagon_xy_binary) /\
  dbm octagon_xy_binary = dbm octagon_xy_binary.
Proof.
  split; [reflexivity|]. split; [reflexivity|].
  apply (less_equal_antisymmetric octagon_xy_binary octagon_xy_binary); reflexivity.
Defined.

Lemma tightening_sequence_shape (k : nat) :
  CDBM.wf (dbm (tightening_sequence k)) /\ CDBM.size (dbm (tightening_sequence k)) = 2.
Proof. split; reflexivity. Qed.

Lemma tightening_sequence_tightens (k : nat) :
  _less_equal (tightening_sequence k) (tightening_sequence (S k))
  = (Ok true, tightening_sequence (S k)).
Proof.
  unfold _less_equal, CDBM.values, tightening_sequence, with_dbm, dbm.
  cbn [_dbm CDBM.size CDBM.cells zip_with forallb].
  destruct (decide (2 ≠ 2)) as [Hne|_]; [contradiction|].
  rewrite !num_le_int by lia. reflexivity.
Qed.

Lemma loosen_then_tighten_shape (k : nat) :
  CDBM.wf (dbm (loosen_then_tighten k)) /\ CDBM.size (dbm (loosen_then_tighten k)) = 2.
Proof. split; reflexivity. Qed.

Lemma loosen_then_tighten_tightens (k : nat) :
  1 <= k ->
  _less_equal (loosen_then_tighten k) (loosen_then_tighten (S k))
  = (Ok true, loosen_then_tighten (S k)).
Proof.
  intros Hk. destruct k as [|k]; [lia|].
  unfold _less_equal, CDBM.values, loosen_then_tighten, with_dbm, dbm.
  cbn [_dbm CDBM.size CDBM.cells zip_with forallb].
  destruct (decide (2 ≠ 2)) as [Hne|_]; [contradiction|].
  rewrite !num_le_int by lia. reflexivity.
Qed.

Lemma bounds_to_one_shape (w : OctagonLattice) :
  CDBM.wf (dbm w) -> CDBM.size (dbm w) = 2 ->
  CDBM.wf (dbm (bounds_to_one w)) /\ CDBM.size (dbm (bounds_to_one w)) = 2 /\
  _less_equal (bounds_to_one w) (bounds_to_one w) = (Ok true, bounds_to_one w).
Proof.
  intros _ _. split; [reflexivity|]. split; [reflexivity|].
  unfold bounds_to_one, _less_equal, CDBM.values, loosen_then_tighten, with_dbm, dbm.
  cbn [_dbm CDBM.size CDBM.cells zip_with forallb].
  destruct (decide (2 ≠ 2)) as [Hne|_]; [contradiction|].
  rewrite !num_le_int by lia. reflexivity.
Qed.

(** Widening along the sequence over [x] whose unary bounds are [0], [1],
    [0], [-1], ...: the first step meets the larger bound [1] and sets the
    entry to [inf]; from then on the sequence tightens and the iterate
    stays.  The loop whose body sets both bounds to [1] stabilises
    likewise. *)
Lemma widening_converges_witness :
  (forall k, CDBM.wf (dbm (loosen_then_tighten k)) /\ CDBM.size (dbm (loosen_then_tighten k)) = 2) /\
  CDBM.get (dbm (loosen_then_tighten 0)) 0 1 = Ok (int 0) /\
  CDBM.get (dbm (loosen_then_tighten 1)) 0 1 = Ok (int 1) /\
  (exists w', widening_iterates loosen_then_tighten 1 = Ok w' /\
              CDBM.get (dbm w') 0 1 = Ok inf) /\
  (forall K, length (filter (fun k => widening_iterates loosen_then_tighten (S k)
                                      <> widening_iterates loosen_then_tighten k) (seq 0 K))
             <= 2 * 2) /\
  (forall k, 1 <= k -> _less_equal (loosen_then_tighten k) (loosen_then_tighten (S k))
                       = (Ok true, loosen_then_tighten (S k))) /\
  (forall j, 1 <= j -> widening_iterates loosen_then_tighten j
                       = widening_iterates loosen_then_tighten 1) /\
  (exists k w, k <= 2 * 2 /\
     widening_loop bounds_to_one (loosen_then_tighten 0) k = Ok w /\
     (forall j, k <= j -> widening_loop bounds_to_one (loosen_then_tighten 0) j = Ok w) /\
     _less_equal w (bounds_to_one w) = (Ok true, bounds_to_one w)).
Proof.
  destruct (widening_converges loosen_then_tighten 2 loosen_then_tighten_shape)
    as (_ & Hentry & Hchanges & Hfrom & _ & Hloop).
  split; [exact loosen_then_tighten_shape|].
  split; [reflexivity|]. split; [reflexivity|].
  split; [exact (Hentry 0 (loosen_then_tighten 0) 0 1 (int 0) (int 1) eq_refl eq_refl eq_refl)|].
  split; [exact Hchanges|].
  split; [exact loosen_then_tighten_tightens|].
  split; [exact (Hfrom 1 loosen_then_tighten_tightens)|].
  exact (Hloop bounds_to_one (loosen_then_tighten 0) (loosen_then_tighten_shape 0)
           bounds_to_one_shape).
Defined.

(** A run of [forget].  Over [x] and [y] with the one constraint [y - x <= 5],
    [forget(x)] keeps the entry between the two negative occurrences at
    [5], even when adding to a variable hands back the variable; when the
    addition raises, [forget] raises [TypeError] and the constraint stays
    at both of its positions. *)
Example forget_keeps_binary_constraint :
  CDBM.get (dbm (snd (forget same__add__ CDBM.close_spec x octagon_xy_binary))) 1 3 = Ok (int 5) /\
  fst (forget no__add__ CDBM.close_spec x octagon_xy_binary) = Raise TypeError /\
  dbm (snd (forget no__add__ CDBM.close_spec x octagon_xy_binary)) = dbm octagon_xy_binary /\
  fst (get_lb same__add__ x (snd (forget same__add__ CDBM.close_spec x octagon_xy_binary)))
  = Raise TypeError.
Proof. vm_compute. repeat split. Qed.

(** Assigning [x + y] to [x]: two variables, no linear form. *)
Lemma assign_extraction_failure_unchanged_witness :
  typ x = TInt /\
  SingleVarLinearForm_init evaluate_spec x_plus_y = Raise ValueError /\
  _assign_variable no__add__ CDBM.close_spec evaluate_spec (Variable_ x) x_plus_y octagon_xy_binary
  = (Ok ["right is not in single variable linear form"%string], octagon_xy_binary).
Proof.
  split; [reflexivity|]. split; [reflexivity|].
  apply (assign_extraction_failure_unchanged no__add__ CDBM.close_spec evaluate_spec
           octagon_xy_binary x x_plus_y); reflexivity.
Defined.

(** * Further properties of the module *)

(** ** The index maps of [__init__] *)

(** What the loop of [__init__] keeps true of the two dictionaries and the
    running index, over the variables seen so far. *)
Definition init_invariant (seen : list VariableIdentifier)
  (acc : gmap VariableIdentifier nat * gmap nat VariableIdentifier * nat) : Prop :=
  acc.2 = 2 * length seen /\
  (forall v, v ∈ seen -> is_Some (acc.1.1 !! v)) /\
  (forall v k, acc.1.1 !! v = Some k ->
     v ∈ seen /\ Nat.even k = true /\ S k < acc.2 /\
     acc.1.2 !! k = Some v /\ acc.1.2 !! (S k) = Some v).

Lemma init_invariant_step (seen : list VariableIdentifier) (var : VariableIdentifier)
  (v2i : gmap VariableIdentifier nat) (i2v : gmap nat VariableIdentifier) (index : nat) :
  init_invariant seen (v2i, i2v, index) ->
  init_invariant (seen ++ [var])
    (<[var := index]> v2i, <[S index := var]> (<[index := var]> i2v), index + 2).
Proof.
  intros (Hidx & Hdom & Hmaps). simpl in *.
  split; [|split]; simpl.
  - rewrite length_app. simpl. lia.
  - intros v Hv. apply elem_of_app in Hv as [Hv|Hv].
    + destruct (decide (var = v)) as [->|Hne].
      * rewrite lookup_insert_eq. eauto.
      * rewrite lookup_insert_ne by exact Hne. apply Hdom. exact Hv.
    + apply list_elem_of_singleton in Hv as ->. rewrite lookup_insert_eq. eauto.
  - intros v k Hk.
    apply lookup_insert_Some in Hk as [[<- <-]|[Hne Hk]].
    + split; [apply elem_of_app; right; apply list_elem_of_singleton; reflexivity|].
      split; [apply Nat.even_spec; exists (length seen); lia|].
      split; [lia|].
      split; [rewrite lookup_insert_ne by lia; apply lookup_insert_eq | apply lookup_insert_eq].
    + destruct (Hmaps v k Hk) as (Hin & Hev & Hlt & Hk0 & Hk1).
      split; [apply elem_of_app; left; exact Hin|].
      split; [exact Hev|].
      split; [lia|].
      split; rewrite !lookup_insert_ne by lia; assumption.
Qed.

Lemma init_maps_invariant (variables : list VariableIdentifier) :
  init_invariant variables (init_maps variables).
Proof.
  unfold init_maps.
  assert (forall todo seen acc,
            init_invariant seen acc ->
            init_invariant (seen ++ todo)
              (fold_left (fun '(v2i, i2v, index) var =>
                            (<[var := index]> v2i, <[S index := var]> (<[index := var]> i2v), index + 2))
                         todo acc)) as Hgen.
  { induction todo as [|var todo IH]; intros seen [[v2i i2v] index] Hacc; simpl.
    - rewrite app_nil_r. exact Hacc.
    - replace (seen ++ var :: todo) with ((seen ++ [var]) ++ todo)
        by (rewrite <- app_assoc; reflexivity).
      apply IH. apply init_invariant_step. exact Hacc. }
  apply (Hgen variables [] (∅, ∅, 0)).
  split; [reflexivity|]. split.
  - intros v Hv. apply elem_of_nil in Hv. contradiction.
  - intros v k Hk. simpl in Hk. rewrite lookup_empty in Hk. discriminate.
Qed.

(** X1.  The index maps built by [__init__] agree with one another.  A
    variable has an index exactly when it is in the list given; that index
    is even, it and its successor are positions of the matrix, and
    [_index_to_var] sends both back to the variable.  So two variables never
    share an index. *)
Theorem init_index_round_trip (variables : list VariableIdentifier) (v : VariableIdentifier) :
  CDBM.size (dbm (OctagonLattice_init variables)) = 2 * length variables /\
  (v ∈ variables <-> is_Some (_var_to_index (OctagonLattice_init variables) !! v)) /\
  (forall k, _var_to_index (OctagonLattice_init variables) !! v = Some k ->
     Nat.even k = true /\
     S k < CDBM.size (dbm (OctagonLattice_init variables)) /\
     _index_to_var (OctagonLattice_init variables) !! k = Some v /\
     _index_to_var (OctagonLattice_init variables) !! S k = Some v) /\
  (forall w k, _var_to_index (OctagonLattice_init variables) !! v = Some k ->
     _var_to_index (OctagonLattice_init variables) !! w = Some k -> v = w).
Proof.
  pose proof (init_maps_invariant variables) as (Hidx & Hdom & Hmaps).
  unfold OctagonLattice_init.
  destruct (init_maps variables) as [[v2i i2v] index]. simpl in *.
  split; [lia|]. split; [|split].
  - split; [apply Hdom|]. intros [k Hk]. apply (Hmaps v k Hk).
  - intros k Hk. destruct (Hmaps v k Hk) as (_ & Hev & Hlt & Hk0 & Hk1).
    repeat split; try assumption. lia.
  - intros w k Hv Hw.
    destruct (Hmaps v k Hv) as (_ & _ & _ & Hk0 & _).
    destruct (Hmaps w k Hw) as (_ & _ & _ & Hk0' & _).
    congruence.
Qed.

(** ** [top()] *)

Lemma set_row_major (d : CDBM.t) (idx : nat) (b : num) :
  idx < CDBM.size d * CDBM.size d ->
  CDBM.set (idx / CDBM.size d) (idx mod CDBM.size d) b d
  = (Ok tt, CDBM.mk (CDBM.size d) (<[idx := b]> (CDBM.cells d))).
Proof.
  intros Hidx.
  destruct (row_major _ _ Hidx) as (Hi & Hj & Heq).
  unfold CDBM.set, CDBM.in_range.
  apply Nat.ltb_lt in Hi, Hj. rewrite Hi, Hj. simpl. rewrite Heq. reflexivity.
Qed.

(** Writing one bound at the positions [idxs], one after the other. *)
Lemma for_each_set_cells (b : num) (idxs : list nat) (o : OctagonLattice) :
  (forall idx, idx ∈ idxs -> idx < CDBM.size (dbm o) * CDBM.size (dbm o)) ->
  for_each ((fun idx => (idx / CDBM.size (dbm o), idx mod CDBM.size (dbm o))) <$> idxs)
           (fun '(i, j) => on_dbm (CDBM.set i j b)) o
  = (Ok tt, with_dbm o (CDBM.mk (CDBM.size (dbm o))
                          (foldl (fun cs idx => <[idx := b]> cs) (CDBM.cells (dbm o)) idxs))).
Proof.
  revert o. induction idxs as [|idx idxs IH]; intros o Hin; simpl.
  - destruct o as [vs v2i i2v [n cs]]. reflexivity.
  - unfold bind, on_dbm at 1.
    rewrite set_row_major by (apply Hin; left).
    set (o1 := mkOctagon (_variables_list o) (_var_to_index o) (_index_to_var o)
                 (CDBM.mk (CDBM.size (dbm o)) (<[idx := b]> (CDBM.cells (dbm o))))).
    change (CDBM.size (dbm o)) with (CDBM.size (dbm o1)).
    rewrite IH; [reflexivity|].
    intros idx' Hidx'. apply Hin. right. exact Hidx'.
Qed.

Lemma foldl_insert_lookup (b : num) (idxs : list nat) (cs : list num) (i : nat) :
  i < length cs ->
  foldl (fun cs idx => <[idx := b]> cs) cs idxs !! i
  = if decide (i ∈ idxs) then Some b else cs !! i.
Proof.
  revert cs. induction idxs as [|idx idxs IH]; intros cs Hi; simpl.
  - destruct (decide (i ∈ [])) as [Hin|_]; [apply elem_of_nil in Hin; contradiction | reflexivity].
  - rewrite IH by (rewrite length_insert; exact Hi).
    destruct (decide (i ∈ idxs)) as [Hin|Hnin].
    + destruct (decide (i ∈ idx :: idxs)) as [_|Hn]; [reflexivity|].
      exfalso. apply Hn. right. exact Hin.
    + destruct (decide (i = idx)) as [->|Hne].
      * rewrite list_lookup_insert_eq by exact Hi.
        destruct (decide (idx ∈ idx :: idxs)) as [_|Hn]; [reflexivity|].
        exfalso. apply Hn. left.
      * rewrite list_lookup_insert_ne by congruence.
        destruct (decide (i ∈ idx :: idxs)) as [Hin|_]; [|reflexivity].
        apply elem_of_cons in Hin as [Heq|Hin]; [contradiction | contradiction].
Qed.

(** X2.  On an octagon whose matrix holds one bound per position, [top()]
    returns normally and leaves every entry at [inf], the diagonal
    included; the size and the index maps are kept.  The result is the
    same whatever the matrix held before, so [top()] twice is [top()]
    once. *)
Theorem top_sets_every_entry (o : OctagonLattice) :
  CDBM.wf (dbm o) ->
  top o = (Ok tt, with_dbm o (CDBM.mk (CDBM.size (dbm o))
                                (replicate (CDBM.size (dbm o) * CDBM.size (dbm o)) inf))) /\
  bind top (fun _ => top) o = top o.
Proof.
  intros Hwf.
  assert (forall o', CDBM.wf (dbm o') ->
            top o' = (Ok tt, with_dbm o' (CDBM.mk (CDBM.size (dbm o'))
                               (replicate (CDBM.size (dbm o') * CDBM.size (dbm o')) inf)))) as Htop.
  { intros o' Hwf'. unfold top, bind. simpl. unfold CDBM.keys.
    rewrite for_each_set_cells by (intros idx Hidx; apply elem_of_seq in Hidx; lia).
    f_equal. f_equal. f_equal.
    unfold CDBM.wf in Hwf'.
    apply list_eq. intros i.
    destruct (decide (i < CDBM.size (dbm o') * CDBM.size (dbm o'))) as [Hlt|Hge].
    - rewrite foldl_insert_lookup by lia.
      rewrite lookup_replicate_2 by exact Hlt.
      destruct (decide (i ∈ seq 0 (CDBM.size (dbm o') * CDBM.size (dbm o')))) as [_|Hn];
        [reflexivity|].
      exfalso. apply Hn. apply elem_of_seq. lia.
    - rewrite (lookup_ge_None_2 (replicate _ _)) by (rewrite length_replicate; lia).
      apply lookup_ge_None_2.
      assert (forall idxs cs, length (foldl (fun cs idx => <[idx := inf]> cs) cs idxs) = length cs) as Hlen.
      { induction idxs as [|idx idxs IH]; intros cs; simpl; [reflexivity|].
        rewrite IH. apply length_insert. }
      rewrite Hlen. lia. }
  split; [apply Htop; exact Hwf|].
  unfold bind. rewrite (Htop o Hwf).
  rewrite Htop by (unfold CDBM.wf, with_dbm, dbm; simpl; apply length_replicate).
  reflexivity.
Qed.

(** ** The order and the widening *)

(** X3.  [_less_equal] is transitive on octagons whose matrices hold one
    bound per position: from [a] below [b] and [b] below [c] it answers
    that [a] is below [c]. *)
Theorem less_equal_transitive (a b c : OctagonLattice) :
  CDBM.wf (dbm a) -> CDBM.wf (dbm b) -> CDBM.wf (dbm c) ->
  _less_equal b a = (Ok true, a) ->
  _less_equal c b = (Ok true, b) ->
  _less_equal c a = (Ok true, a).
Proof.
  intros Ha Hb Hc Hab Hbc.
  apply less_equal_true in Hab as [Sab Hab], Hbc as [Sbc Hbc].
  unfold _less_equal, CDBM.values.
  destruct (decide (CDBM.size (dbm a) ≠ CDBM.size (dbm c))) as [Hne|_]; [congruence|].
  unfold CDBM.wf in *.
  assert (forallb (fun '(x, y) => num_le x y)
                  (zip (CDBM.cells (dbm a)) (CDBM.cells (dbm c))) = true) as ->
    by (apply (forallb_le_trans _ (CDBM.cells (dbm b)) _); try assumption; congruence).
  reflexivity.
Qed.

Lemma num_le_inf (a : num) : num_le a a = true -> num_le a inf = true.
Proof. destruct a; simpl; auto. Qed.

Lemma widening_rule_upper (a b : num) :
  num_le a a = true -> num_le b b = true ->
  num_le a (widening_rule a b) = true /\ num_le b (widening_rule a b) = true.
Proof.
  intros Ha Hb. unfold widening_rule, num_ge.
  destruct (num_le b a) eqn:Hba; [auto|].
  split; apply num_le_inf; assumption.
Qed.

Lemma zip_widening_upper (l l' : list num) :
  length l = length l' ->
  forallb (fun '(x, y) => num_le x y) (zip l l) = true ->
  forallb (fun '(x, y) => num_le x y) (zip l' l') = true ->
  forallb (fun '(x, y) => num_le x y) (zip l (zip_with widening_rule l l')) = true /\
  forallb (fun '(x, y) => num_le x y) (zip l' (zip_with widening_rule l l')) = true.
Proof.
  revert l'. induction l as [|a l IH]; intros [|b l'] Hlen Hl Hl'; simpl in *; try discriminate.
  - auto.
  - apply andb_true_iff in Hl as [Ha Hl], Hl' as [Hb Hl'].
    destruct (widening_rule_upper a b Ha Hb) as [Ua Ub].
    destruct (IH l') as [IH1 IH2]; [lia | assumption | assumption |].
    rewrite Ua, Ub, IH1, IH2. auto.
Qed.

(** X4.  Widening yields an upper bound.  For two octagons of one size whose
    bounds are all comparable to themselves (no entry is a NaN, which is
    what [_less_equal] of an octagon with itself tests), [_widening] returns
    normally and both the receiver as it was and [other] are below the
    result by [_less_equal]. *)
Theorem widening_upper_bound (self other : OctagonLattice) :
  CDBM.wf (dbm self) -> CDBM.wf (dbm other) ->
  CDBM.size (dbm self) = CDBM.size (dbm other) ->
  _less_equal self self = (Ok true, self) ->
  _less_equal other other = (Ok true, other) ->
  fst (_widening other self) = Ok tt /\
  _less_equal (snd (_widening other self)) self = (Ok true, self) /\
  _less_equal (snd (_widening other self)) other = (Ok true, other).
Proof.
  intros Hs Ho Hsize Href Href'.
  apply less_equal_true in Href as [_ Href], Href' as [_ Href'].
  rewrite widening_same_size by assumption. simpl.
  split; [reflexivity|].
  unfold CDBM.wf in *.
  destruct (zip_widening_upper (CDBM.cells (dbm self)) (CDBM.cells (dbm other))) as [U1 U2];
    [congruence | assumption | assumption |].
  unfold _less_equal, CDBM.values, dbm. simpl.
  destruct (decide (CDBM.size (_dbm self) ≠ CDBM.size (_dbm self))) as [Hne|_]; [contradiction|].
  destruct (decide (CDBM.size (_dbm other) ≠ CDBM.size (_dbm self))) as [Hne|_];
    [unfold dbm in Hsize; congruence|].
  unfold dbm in U1, U2. rewrite U1, U2. auto.
Qed.

(** X5.  Widening only gives constraints up.  On operands of one size every
    entry of the result is the receiver's entry or [inf], and an entry of
    the receiver at [inf] stays at [inf]. *)
Theorem widening_only_loosens (self other : OctagonLattice) (i j : nat) (b : num) :
  CDBM.wf (dbm self) -> CDBM.wf (dbm other) ->
  CDBM.size (dbm self) = CDBM.size (dbm other) ->
  CDBM.get (dbm self) i j = Ok b ->
  CDBM.get (dbm (snd (_widening other self))) i j = Ok b \/
  CDBM.get (dbm (snd (_widening other self))) i j = Ok inf.
Proof.
  intros Hs Ho Hsize Hget.
  rewrite widening_same_size by assumption. simpl.
  unfold CDBM.get, CDBM.in_range, dbm in *. simpl.
  destruct ((i <? CDBM.size (_dbm self)) && (j <? CDBM.size (_dbm self))) eqn:Hin; [|discriminate].
  destruct (CDBM.cells (_dbm self) !! (i * CDBM.size (_dbm self) + j)) as [a|] eqn:Ha; [|discriminate].
  injection Hget as ->.
  rewrite lookup_zip_with, Ha. simpl.
  destruct (lookup_lt_is_Some_2 (CDBM.cells (_dbm other)) (i * CDBM.size (_dbm self) + j)) as [c Hc].
  { apply lookup_lt_Some in Ha. unfold CDBM.wf in *. congruence. }
  rewrite Hc. simpl.
  destruct (widening_rule_cases b c) as [->| ->]; auto.
Qed.

(** ** Index access *)

Lemma set_effect (i j : nat) (v : num) (d : CDBM.t) :
  CDBM.wf d -> i < CDBM.size d -> j < CDBM.size d ->
  fst (CDBM.set i j v d) = Ok tt /\
  CDBM.wf (snd (CDBM.set i j v d)) /\
  CDBM.size (snd (CDBM.set i j v d)) = CDBM.size d /\
  forall a b, CDBM.get (snd (CDBM.set i j v d)) a b
              = if decide ((a, b) = (i, j)) then Ok v else CDBM.get d a b.
Proof.
  intros Hwf Hi Hj.
  pose proof (set_frame i j v d) as Hframe.
  unfold CDBM.set, CDBM.in_range in *.
  destruct (Nat.ltb_lt i (CDBM.size d)) as [_ Hi'], (Nat.ltb_lt j (CDBM.size d)) as [_ Hj'].
  rewrite (Hi' Hi), (Hj' Hj) in *. simpl in *.
  split; [reflexivity|].
  split; [unfold CDBM.wf in *; simpl; rewrite length_insert; exact Hwf|].
  split; [reflexivity|].
  intros a b. destruct (decide ((a, b) = (i, j))) as [[= -> ->]|Hne]; [|apply Hframe; exact Hne].
  unfold CDBM.get, CDBM.in_range. simpl.
  rewrite (Hi' Hi), (Hj' Hj). simpl.
  rewrite list_lookup_insert_eq; [reflexivity|].
  unfold CDBM.wf in Hwf. nia.
Qed.

Lemma on_dbm_set_effect (i j : nat) (v : num) (o : OctagonLattice) :
  CDBM.wf (dbm o) -> i < CDBM.size (dbm o) -> j < CDBM.size (dbm o) ->
  exists o', on_dbm (CDBM.set i j v) o = (Ok tt, o') /\
             CDBM.wf (dbm o') /\ CDBM.size (dbm o') = CDBM.size (dbm o) /\
             forall a b, CDBM.get (dbm o') a b
                         = if decide ((a, b) = (i, j)) then Ok v else CDBM.get (dbm o) a b.
Proof.
  intros Hwf Hi Hj.
  destruct (set_effect i j v (dbm o) Hwf Hi Hj) as (Hok & Hwf' & Hsize & Hget).
  unfold on_dbm.
  destruct (CDBM.set i j v (dbm o)) as [r d]. simpl in *. subst r.
  eexists. split; [reflexivity|]. simpl. auto.
Qed.

(** The loop of the two-element branch, run over the rows [rows]: it
    returns normally, and writes [value] at the positions of row [k] and
    column [k] that face a row of [rows], the diagonal apart. *)
Lemma clear_loop_effect (k : nat) (value : num) (rows : list nat) (o : OctagonLattice) :
  CDBM.wf (dbm o) -> k < CDBM.size (dbm o) ->
  (forall i, i ∈ rows -> i < CDBM.size (dbm o)) ->
  exists o',
    for_each rows (fun i => if decide (i ≠ k)
                            then bind (on_dbm (CDBM.set i k value))
                                      (fun _ => on_dbm (CDBM.set k i value))
                            else ret tt) o = (Ok tt, o') /\
    CDBM.wf (dbm o') /\ CDBM.size (dbm o') = CDBM.size (dbm o) /\
    forall a b, CDBM.get (dbm o') a b
                = if decide (a ≠ b /\ ((b = k /\ a ∈ rows) \/ (a = k /\ b ∈ rows)))
                  then Ok value else CDBM.get (dbm o) a b.
Proof.
  revert o. induction rows as [|i rows IH]; intros o Hwf Hk Hrows.
  - exists o. simpl. split; [reflexivity|]. split; [exact Hwf|]. split; [reflexivity|].
    intros a b. destruct (decide _) as [(_ & [[_ Hin]|[_ Hin]])|_]; try reflexivity;
      apply elem_of_nil in Hin; contradiction.
  - assert (i < CDBM.size (dbm o)) as Hi by (apply Hrows; left).
    simpl. unfold bind at 1.
    destruct (decide (i ≠ k)) as [Hik|Hik].
    + unfold bind at 1.
      destruct (on_dbm_set_effect i k value o Hwf Hi Hk) as (o1 & -> & Hwf1 & Hs1 & Hg1).
      destruct (on_dbm_set_effect k i value o1 Hwf1) as (o2 & -> & Hwf2 & Hs2 & Hg2); [lia|lia|].
      destruct (IH o2 Hwf2) as (o' & -> & Hwf' & Hs' & Hg');
        [lia | intros i' Hi'; rewrite Hs2, Hs1; apply Hrows; right; exact Hi' |].
      exists o'. split; [reflexivity|]. split; [exact Hwf'|]. split; [lia|].
      intros a b. rewrite Hg', Hg2, Hg1.
      repeat case_decide; try reflexivity; exfalso;
        repeat match goal with
               | H : (_, _) = (_, _) |- _ => injection H as ? ?; subst
               | H : _ /\ _ |- _ => destruct H
               | H : _ ∈ _ :: _ |- _ => apply elem_of_cons in H
               end;
        set_solver.
    + assert (i = k) as -> by (destruct (decide (i = k)); [assumption|contradiction]).
      simpl.
      destruct (IH o Hwf Hk) as (o' & -> & Hwf' & Hs' & Hg');
        [intros i' Hi'; apply Hrows; right; exact Hi'|].
      exists o'. split; [reflexivity|]. split; [exact Hwf'|]. split; [exact Hs'|].
      intros a b. rewrite Hg'.
      repeat case_decide; try reflexivity; exfalso; set_solver.
Qed.

Lemma bind_ok {S A B} (m : M S A) (k : A -> M S B) (s s' : S) (a : A) :
  m s = (Ok a, s') -> bind m k s = k a s'.
Proof. intros H. unfold bind. rewrite H. reflexivity. Qed.

Lemma bind_raise {S A B} (m : M S A) (k : A -> M S B) (s s' : S) (e : exn) :
  m s = (Raise e, s') -> bind m k s = (Raise e, s').
Proof. intros H. unfold bind. rewrite H. reflexivity. Qed.

Section IndexAccess.

Variable var__add__ : VariableIdentifier -> pyval -> res (option VariableIdentifier).

(** X6.  What the two-element form of [__setitem__] writes.  When
    [var + sign] is a key the dictionary maps to a position [k] of the
    matrix, [self[var, sign] = value] returns normally; it sets every entry
    of row [k] and of column [k] to [value] except the diagonal entry
    [(k, k)], and leaves every other entry of the matrix as it was. *)
Theorem setitem_two_writes_row_and_column (var w : VariableIdentifier) (sign : Sign)
  (value : num) (k : nat) (o : OctagonLattice) :
  CDBM.wf (dbm o) ->
  var__add__ var (VSign sign) = Ok (Some w) ->
  _var_to_index o !! w = Some k ->
  k < CDBM.size (dbm o) ->
  fst (__setitem__ var__add__ (Index2 var sign) value o) = Ok tt /\
  forall a b, a < CDBM.size (dbm o) -> b < CDBM.size (dbm o) ->
    CDBM.get (dbm (snd (__setitem__ var__add__ (Index2 var sign) value o))) a b
    = if decide (a ≠ b /\ (a = k \/ b = k)) then Ok value else CDBM.get (dbm o) a b.
Proof.
  intros Hwf Hadd Hlook Hk.
  unfold __setitem__.
  erewrite bind_ok by reflexivity.
  erewrite bind_ok by (unfold lift; rewrite Hadd; reflexivity).
  erewrite bind_ok by (unfold var_to_index_lookup; simpl; rewrite Hlook; reflexivity).
  erewrite bind_ok by reflexivity.
  destruct (clear_loop_effect k value (seq 0 (CDBM.size (dbm o))) o Hwf Hk)
    as (o' & -> & _ & _ & Hget).
  { intros i Hi. apply elem_of_seq in Hi. lia. }
  split; [reflexivity|].
  intros a b Ha Hb. simpl. rewrite Hget.
  assert (a ∈ seq 0 (CDBM.size (dbm o))) by (apply elem_of_seq; lia).
  assert (b ∈ seq 0 (CDBM.size (dbm o))) by (apply elem_of_seq; lia).
  repeat case_decide; try reflexivity; exfalso; tauto.
Qed.

(** X7.  A key the dictionary does not hold.  When [var + sign] is a key
    equal to no variable of [_var_to_index], [self[var, sign] = value]
    raises [KeyError] and the octagon is left as it was; when the addition
    itself raises, that exception comes out, again with nothing written. *)
Theorem setitem_two_unknown_key (var : VariableIdentifier) (sign : Sign) (value : num)
  (o : OctagonLattice) :
  (forall key, var__add__ var (VSign sign) = Ok key ->
     key ≫= (fun v => _var_to_index o !! v) = None ->
     __setitem__ var__add__ (Index2 var sign) value o = (Raise KeyError, o)) /\
  (forall e, var__add__ var (VSign sign) = Raise e ->
     __setitem__ var__add__ (Index2 var sign) value o = (Raise e, o)).
Proof.
  split.
  - intros key Hadd Hkey.
    unfold __setitem__, bind, ret, lift, var_to_index_lookup. simpl.
    rewrite Hadd. simpl. rewrite Hkey. reflexivity.
  - intros e Hadd.
    unfold __setitem__, bind, ret, lift. simpl.
    rewrite Hadd. reflexivity.
Qed.

(** X8.  Reading through an index never yields a bound, and writing
    succeeds through a two-element index only.  [__getitem__] raises on
    every index tuple ([TypeError] on four elements, [ValueError]
    otherwise); [__setitem__] raises on every index tuple whose length is
    not 2; the octagon is unchanged in each case. *)
Theorem index_access_raises (idx : index) (value : num) (o : OctagonLattice) :
  __getitem__ var__add__ idx o
  = (Raise (if decide (len idx = 4) then TypeError else ValueError), o) /\
  (len idx <> 2 ->
   __setitem__ var__add__ idx value o
   = (Raise (if decide (len idx = 4) then TypeError else ValueError), o)).
Proof.
  split.
  - destruct idx as [var sign|var1 sign1 var2 sign2|n]; try reflexivity.
    simpl. destruct (decide (other_length n = 4)) as [H4|_]; [|reflexivity].
    exfalso. destruct n as [|[|[|n]]]; simpl in H4; lia.
  - intros Hlen. destruct idx as [var sign|var1 sign1 var2 sign2|n]; try reflexivity.
    + simpl in Hlen. contradiction.
    + simpl. destruct (decide (other_length n = 4)) as [H4|_]; [|reflexivity].
      exfalso. destruct n as [|[|[|n]]]; simpl in H4; lia.
Qed.

(** X9.  The interval accessors never return.  [set_interval] raises
    [TypeError] for every variable and every interval or integer, because
    it calls [set_lb] and [set_ub] with the bound alone; [get_interval]
    raises [TypeError] for every variable; neither changes the octagon. *)
Theorem interval_accessors_raise (var : VariableIdentifier) (interval : interval_or_int)
  (o : OctagonLattice) :
  set_interval var__add__ var interval o = (Raise TypeError, o) /\
  get_interval var__add__ var o = (Raise TypeError, o).
Proof. split; [destruct interval; reflexivity | reflexivity]. Qed.

End IndexAccess.

Section Printing.

Variable var__add__ : VariableIdentifier -> pyval -> res (option VariableIdentifier).
Variable format_num : num -> string.

(** X10.  Printing an octagon.  [__repr__] returns the empty string for an
    octagon without variables and raises [TypeError] for every octagon
    with at least one variable, at the first bound it reads; the octagon
    is unchanged. *)
Theorem repr_outcome (o : OctagonLattice) :
  __repr__ var__add__ format_num o
  = (match _variables_list o with [] => Ok ""%string | _ :: _ => Raise TypeError end, o).
Proof.
  unfold __repr__, bind at 1. simpl.
  destruct (_variables_list o) as [|v vs]; reflexivity.
Qed.

End Printing.

(** ** The single-variable linear form *)

(** An operand the visitor accepts as the variable: a variable, or a
    signed variable, read with its sign. *)
Definition signed_operand (e : Expression) : option (Sign * VariableIdentifier) :=
  match e with
  | Variable_ v => Some (PLUS, v)
  | UnaryArithmeticOperation s (Variable_ v) => Some (s, v)
  | _ => None
  end.

(** The product of two signs. *)
Definition Sign_times (a b : Sign) : Sign := if decide (a = b) then PLUS else MINUS.

Lemma Sign_mul_times (a b : Sign) : Sign_mul a b = Ok (Sign_times a b).
Proof. destruct a, b; reflexivity. Qed.

Section LinearForm.

Variable evaluate_expression : Expression -> res IntervalLattice.t.

(** X11.  A variable operand followed by an interval operand.  When the
    left operand of a sum or difference is a (signed) variable that does
    not evaluate to an interval and the right operand evaluates to the
    interval [i], the form holds that variable with its own sign, and the
    interval [i], negated when the operation is a subtraction. *)
Theorem linear_form_variable_first (left right : Expression) (operator : BinaryOperator)
  (s s' : Sign) (v : VariableIdentifier) (i : IntervalLattice.t) :
  evaluate_expression left = Raise ValueError ->
  signed_operand left = Some (s', v) ->
  evaluate_expression right = Ok i ->
  binary_to_unary_operator operator = Ok s ->
  SingleVarLinearForm_init evaluate_expression (BinaryArithmeticOperation left operator right)
  = Ok (mkForm s' (Some v) (Some (if decide (s = MINUS) then IntervalLattice.negate i else i))).
Proof.
  intros Hl Hsl Hr Hop.
  unfold SingleVarLinearForm_init, visit, visit_BinaryArithmeticOperation.
  unfold try_except_ValueError, bind, lift. rewrite Hl, Hr, Hop.
  destruct left as [| v0 | | | s0 [| v0 | | | |] |]; simpl in Hsl; try discriminate;
    injection Hsl as <- <-; simpl; destruct (decide (s = MINUS)); reflexivity.
Qed.

(** X12.  An interval operand followed by a variable operand.  When the
    left operand evaluates to the interval [i] and the right operand is a
    (signed) variable, the form holds [i] as it is and the variable with
    the product of the operation's sign and its own: a subtracted variable
    is negative, a subtracted negated variable positive.  This holds
    whether evaluating the right operand fails with [ValueError] or
    succeeds, since a second interval is refused and the operand is then
    read as the variable. *)
Theorem linear_form_interval_first (left right : Expression) (operator : BinaryOperator)
  (s s' : Sign) (v : VariableIdentifier) (i : IntervalLattice.t) :
  evaluate_expression left = Ok i ->
  (forall e, evaluate_expression right = Raise e -> e = ValueError) ->
  signed_operand right = Some (s', v) ->
  binary_to_unary_operator operator = Ok s ->
  SingleVarLinearForm_init evaluate_expression (BinaryArithmeticOperation left operator right)
  = Ok (mkForm (Sign_times s s') (Some v) (Some i)).
Proof.
  intros Hl Hr Hsr Hop.
  unfold SingleVarLinearForm_init, visit, visit_BinaryArithmeticOperation.
  unfold try_except_ValueError, bind, lift. rewrite Hl. simpl.
  destruct (evaluate_expression right) as [i'|e] eqn:Her; simpl.
  - destruct right as [| v0 | | | s0 [| v0 | | | |] |]; simpl in Hsr; try discriminate;
      injection Hsr as <- <-; simpl; rewrite Hop; simpl;
      rewrite ?Sign_mul_times; destruct s; reflexivity.
  - rewrite (Hr e eq_refl).
    destruct right as [| v0 | | | s0 [| v0 | | | |] |]; simpl in Hsr; try discriminate;
      injection Hsr as <- <-; simpl; rewrite Hop; simpl;
      rewrite ?Sign_mul_times; destruct s; reflexivity.
Qed.

(** X13.  Only sums and differences match.  For an operator that is
    neither addition nor subtraction, building the form of a binary
    operation raises, whatever the operands are and whatever evaluating
    them gives. *)
Theorem linear_form_other_operator (left right : Expression) (operator : BinaryOperator) :
  binary_to_unary_operator operator = Raise ValueError ->
  exists e, SingleVarLinearForm_init evaluate_expression
              (BinaryArithmeticOperation left operator right) = Raise e.
Proof.
  intros Hop.
  unfold SingleVarLinearForm_init, visit, visit_BinaryArithmeticOperation.
  unfold bind at 1.
  match goal with
  | |- context [try_except_ValueError ?body ?handler ?s] =>
      destruct (try_except_ValueError body handler s) as [[[]|e1] f1]
  end; [|eauto].
  destruct f1 as [sg [v|] [it|]];
    unfold try_except_ValueError, bind, lift, set_form_interval, set_var; rewrite Hop;
    destruct (evaluate_expression right) as [i|[]]; simpl; eauto;
    destruct right as [| v0 | | | s0 [| v0 | | | |] |]; simpl; eauto.
Qed.

(** X14.  A second contribution is refused.  Two operands that both
    evaluate to an interval (the second not being a variable), and two
    operands that are both variables, make the form raise [ValueError]. *)
Theorem linear_form_second_contribution (left right : Expression) (operator : BinaryOperator) :
  (forall i i', evaluate_expression left = Ok i ->
     evaluate_expression right = Ok i' ->
     signed_operand right = None ->
     SingleVarLinearForm_init evaluate_expression (BinaryArithmeticOperation left operator right)
     = Raise ValueError) /\
  (forall p q, evaluate_expression left = Raise ValueError ->
     signed_operand left = Some p ->
     evaluate_expression right = Raise ValueError ->
     signed_operand right = Some q ->
     SingleVarLinearForm_init evaluate_expression (BinaryArithmeticOperation left operator right)
     = Raise ValueError).
Proof.
  split.
  - intros i i' Hl Hr Hsr.
    unfold SingleVarLinearForm_init, visit, visit_BinaryArithmeticOperation.
    unfold try_except_ValueError, bind, lift. rewrite Hl, Hr. simpl.
    destruct right as [| v0 | | | s0 [| v0 | | | |] |]; simpl in Hsr; try discriminate; reflexivity.
  - intros p q Hl Hsl Hr Hsr.
    unfold SingleVarLinearForm_init, visit, visit_BinaryArithmeticOperation.
    unfold try_except_ValueError, bind, lift. rewrite Hl, Hr. simpl.
    destruct left as [| v0 | | | s0 [| v0 | | | |] |]; simpl in Hsl; try discriminate;
      destruct right as [| v1 | | | s1 [| v1 | | | |] |]; simpl in Hsr; try discriminate;
      reflexivity.
Qed.

(** X15.  What a form holds when the visit succeeds.  A form that
    [SingleVarLinearForm(expr)] returns holds a variable or an interval
    (or both), and its sign is [PLUS] unless it holds a variable. *)
Theorem linear_form_fields (expr : Expression) (form : SingleVarLinearForm) :
  SingleVarLinearForm_init evaluate_expression expr = Ok form ->
  (is_Some (_var form) \/ is_Some (_interval form)) /\
  (_var form = None -> _var_sign form = PLUS).
Proof.
  unfold SingleVarLinearForm_init.
  destruct expr as [t val | v | t | l op r | s e | kind]; simpl.
  - unfold visit_Literal, bind, lift, set_form_interval.
    destruct (evaluate_expression (Literal t val)); simpl; [|discriminate].
    intros [= <-]. simpl. split; [right; eauto | reflexivity].
  - intros [= <-]. simpl. split; [left; eauto | discriminate].
  - intros [= <-]. simpl. split; [right; eauto | reflexivity].
  - unfold visit_BinaryArithmeticOperation, try_except_ValueError, bind, lift,
      set_form_interval, set_var, set_var_sign, negate_form_interval, ret, raise.
    destruct (evaluate_expression l) as [il|[]]; simpl;
      destruct l as [| v0 | | | s0 [| v0 | | | |] |]; simpl; try discriminate;
      destruct (evaluate_expression r) as [ir|[]]; simpl; try discriminate;
      destruct r as [| v1 | | | s1 [| v1 | | | |] |]; simpl; try discriminate;
      destruct op; simpl; try discriminate;
      try (destruct s0); try (destruct s1); simpl; try discriminate;
      intros [= <-]; simpl; (split; [eauto | try discriminate; try reflexivity]).
  - unfold visit_UnaryArithmeticOperation, try_except_ValueError, bind, lift,
      set_form_interval, set_var, set_var_sign, ret, raise.
    destruct (evaluate_expression (UnaryArithmeticOperation s e)) as [i|[]]; simpl;
      try discriminate;
      destruct e as [| v0 | | | |]; simpl; try discriminate;
      intros [= <-]; simpl; (split; [eauto | try discriminate; try reflexivity]).
  - discriminate.
Qed.

End LinearForm.

(** ** [_assign_variable] *)

Section AssignProperties.

Variable var__add__ : VariableIdentifier -> pyval -> res (option VariableIdentifier).
Variable close : M CDBM.t unit.
Variable evaluate_expression : Expression -> res IntervalLattice.t.

(** X16.  Which [ValueError] escapes an assignment.  An assignment to a
    variable ends in [ValueError] exactly when the variable is not
    integer-typed: the type check stands outside the [try], and every
    [ValueError] raised inside it is caught. *)
Theorem assign_ValueError_iff (target : VariableIdentifier) (right : Expression)
  (o : OctagonLattice) :
  fst (_assign_variable var__add__ close evaluate_expression (Variable_ target) right o)
  = Raise ValueError
  <-> typ target <> TInt.
Proof.
  unfold _assign_variable.
  destruct (decide (typ target ≠ TInt)) as [Hne|Heq].
  - simpl. split; [intros _; exact Hne | reflexivity].
  - split; [|contradiction].
    unfold try_except_ValueError.
    match goal with
    | |- context [let (_, _) := ?body o in _] => destruct (body o) as [[l|[]] o']
    end; simpl; discriminate.
Qed.

(** X17.  What an assignment can do to the octagon.  Whatever the two
    sides are and however the call ends, the octagon is afterwards either
    as it was before, or as [forget] of the assigned variable leaves it;
    the assignment itself never writes a bound. *)
Theorem assign_state_effect (left right : Expression) (o : OctagonLattice) :
  snd (_assign_variable var__add__ close evaluate_expression left right o) = o \/
  exists target, left = Variable_ target /\
    snd (_assign_variable var__add__ close evaluate_expression left right o)
    = snd (forget var__add__ close target o).
Proof.
  destruct left as [| target | | | |]; try (left; reflexivity).
  assert (exists r s,
            _assign_variable var__add__ close evaluate_expression (Variable_ target) right o = (r, s)
            /\ (s = o \/ s = snd (forget var__add__ close target o))) as (r & s & -> & Hs).
  { unfold _assign_variable.
    destruct (decide (typ target ≠ TInt)); [eexists _, _; split; [reflexivity | left; reflexivity]|].
    unfold try_except_ValueError, bind at 1, lift.
    destruct (SingleVarLinearForm_init evaluate_expression right) as [form|[]];
      try (eexists _, _; split; [reflexivity | left; reflexivity]).
    destruct (_var form) as [v|], (_interval form) as [i|];
      try (eexists _, _; split; [reflexivity | left; reflexivity]).
    - destruct (decide (v = target));
        [|eexists _, _; split; [reflexivity | left; reflexivity]].
      destruct (decide (_var_sign form = PLUS));
        [eexists _, _; split; [reflexivity | left; reflexivity]|].
      destruct (decide (_var_sign form = MINUS));
        eexists _, _; (split; [reflexivity | left; reflexivity]).
    - unfold bind at 1.
      destruct (forget var__add__ close target o) as [[[]|[]] o1];
        eexists _, _; (split; [reflexivity | right; reflexivity]). }
  simpl. destruct Hs as [->| ->]; [left; reflexivity | right; eauto].
Qed.

(** X18.  The assignments that do nothing.  For an integer variable, a
    right-hand side whose form holds another variable, or the variable
    itself with negative sign, or a variable and no interval, is accepted
    without any effect: the call returns normally, prints nothing, and the
    octagon keeps every bound it held for the assigned variable. *)
Theorem assign_unhandled_forms_are_no_ops (target v : VariableIdentifier) (right : Expression)
  (form : SingleVarLinearForm) (o : OctagonLattice) :
  typ target = TInt ->
  SingleVarLinearForm_init evaluate_expression right = Ok form ->
  _var form = Some v ->
  v <> target \/ _var_sign form = MINUS \/ _interval form = None ->
  _assign_variable var__add__ close evaluate_expression (Variable_ target) right o
  = (Ok [], o).
Proof.
  intros Htyp Hform Hvar Hcase.
  unfold _assign_variable.
  destruct (decide (typ target ≠ TInt)) as [Hne|_]; [contradiction|].
  unfold try_except_ValueError, bind at 1, lift. rewrite Hform, Hvar.
  destruct (_interval form) as [i|]; [|reflexivity].
  destruct (decide (v = target)) as [->|Hne]; [|reflexivity].
  destruct Hcase as [Hne|[Hs|Hi]]; [contradiction| |discriminate].
  rewrite Hs. reflexivity.
Qed.

End AssignProperties.

(** ** [_meet] and [_join] *)

Lemma num_le_total (a b : num) :
  num_le a a = true -> num_le b b = true -> num_le a b = true \/ num_le b a = true.
Proof.
  destruct a as [p| | |], b as [q| | |]; simpl; auto; try discriminate.
  intros _ _.
  destruct (Qclt_le_dec q p) as [Hlt|Hle].
  - right. apply bool_decide_eq_true. apply Qclt_le_weak. exact Hlt.
  - left. apply bool_decide_eq_true. exact Hle.
Qed.

Lemma num_min_lower (a b : num) :
  num_le a a = true -> num_le b b = true ->
  num_le (num_min a b) a = true /\ num_le (num_min a b) b = true.
Proof.
  intros Ha Hb. unfold num_min.
  destruct (num_le a b) eqn:Hab; [auto|].
  destruct (num_le b a) eqn:Hba; [auto|].
  destruct (num_le_total a b Ha Hb); congruence.
Qed.

Lemma num_max_upper (a b : num) :
  num_le a a = true -> num_le b b = true ->
  num_le a (num_max a b) = true /\ num_le b (num_max a b) = true.
Proof.
  intros Ha Hb. unfold num_max.
  destruct (num_le b a) eqn:Hba; [auto|].
  destruct (num_le a b) eqn:Hab; [auto|].
  destruct (num_le_total a b Ha Hb); congruence.
Qed.

Lemma zip_min_lower (l l' : list num) :
  length l = length l' ->
  forallb (fun '(x, y) => num_le x y) (zip l l) = true ->
  forallb (fun '(x, y) => num_le x y) (zip l' l') = true ->
  forallb (fun '(x, y) => num_le x y) (zip (zip_with num_min l l') l) = true /\
  forallb (fun '(x, y) => num_le x y) (zip (zip_with num_min l l') l') = true.
Proof.
  revert l'. induction l as [|a l IH]; intros [|b l'] Hlen Hl Hl'; simpl in *; try discriminate.
  - auto.
  - apply andb_true_iff in Hl as [Ha Hl], Hl' as [Hb Hl'].
    destruct (num_min_lower a b Ha Hb) as [La Lb].
    destruct (IH l') as [IH1 IH2]; [lia | assumption | assumption |].
    rewrite La, Lb, IH1, IH2. auto.
Qed.

Lemma zip_max_upper (l l' : list num) :
  length l = length l' ->
  forallb (fun '(x, y) => num_le x y) (zip l l) = true ->
  forallb (fun '(x, y) => num_le x y) (zip l' l') = true ->
  forallb (fun '(x, y) => num_le x y) (zip l (zip_with num_max l l')) = true /\
  forallb (fun '(x, y) => num_le x y) (zip l' (zip_with num_max l l')) = true.
Proof.
  revert l'. induction l as [|a l IH]; intros [|b l'] Hlen Hl Hl'; simpl in *; try discriminate.
  - auto.
  - apply andb_true_iff in Hl as [Ha Hl], Hl' as [Hb Hl'].
    destruct (num_max_upper a b Ha Hb) as [Ua Ub].
    destruct (IH l') as [IH1 IH2]; [lia | assumption | assumption |].
    rewrite Ua, Ub, IH1, IH2. auto.
Qed.

(** X19.  The meet is a lower bound and needs no closure.  For two
    octagons of one size whose bounds are all comparable to themselves,
    [_meet] returns normally without calling [close], and the result is
    below the receiver as it was and below [other] by [_less_equal]. *)
Theorem meet_lower_bound (self other : OctagonLattice) :
  CDBM.wf (dbm self) -> CDBM.wf (dbm other) ->
  CDBM.size (dbm self) = CDBM.size (dbm other) ->
  _less_equal self self = (Ok true, self) ->
  _less_equal other other = (Ok true, other) ->
  fst (_meet other self) = Ok tt /\
  fst (_less_equal self (snd (_meet other self))) = Ok true /\
  fst (_less_equal other (snd (_meet other self))) = Ok true.
Proof.
  intros Hs Ho Hsize Href Href'.
  apply less_equal_true in Href as [_ Href], Href' as [_ Href'].
  assert (_meet other self
          = (Ok tt, with_dbm self (CDBM.mk (CDBM.size (dbm self))
                                     (zip_with num_min (CDBM.cells (dbm self))
                                                       (CDBM.cells (dbm other)))))) as ->.
  { unfold _meet.
    destruct (decide (CDBM.size (dbm self) ≠ CDBM.size (dbm other))) as [Hne|_]; [contradiction|].
    unfold on_dbm, CDBM.intersection.
    rewrite zip_with_dbm_same_size by assumption. reflexivity. }
  simpl.
  split; [reflexivity|].
  unfold CDBM.wf in *.
  destruct (zip_min_lower (CDBM.cells (dbm self)) (CDBM.cells (dbm other))) as [L1 L2];
    [congruence | assumption | assumption |].
  unfold _less_equal, CDBM.values, with_dbm, dbm in *. simpl in *.
  destruct (decide (CDBM.size (_dbm self) ≠ CDBM.size (_dbm self))) as [Hne|_]; [contradiction|].
  destruct (decide (CDBM.size (_dbm self) ≠ CDBM.size (_dbm other))) as [Hne|_]; [congruence|].
  simpl. rewrite L1, L2. auto.
Qed.

(** X20.  The join closes both operands and is an upper bound of the
    closures.  When [close] returns on both matrices, leaving them of one
    size with bounds comparable to themselves, [_join] returns normally;
    [other] is left holding its closure, and the closures of both operands
    are below the receiver's new matrix by [_less_equal]. *)
Theorem join_upper_bound (close : M CDBM.t unit) (self other : OctagonLattice)
  (ds dother : CDBM.t) :
  CDBM.size (dbm self) = CDBM.size (dbm other) ->
  close (dbm self) = (Ok tt, ds) ->
  close (dbm other) = (Ok tt, dother) ->
  CDBM.wf ds -> CDBM.wf dother -> CDBM.size ds = CDBM.size dother ->
  _less_equal (with_dbm self ds) (with_dbm self ds) = (Ok true, with_dbm self ds) ->
  _less_equal (with_dbm other dother) (with_dbm other dother) = (Ok true, with_dbm other dother) ->
  fst (_join close (self, other)) = Ok tt /\
  snd (snd (_join close (self, other))) = with_dbm other dother /\
  fst (_less_equal (fst (snd (_join close (self, other)))) (with_dbm self ds)) = Ok true /\
  fst (_less_equal (fst (snd (_join close (self, other)))) (with_dbm other dother)) = Ok true.
Proof.
  intros Hsize Hcs Hco Hwfs Hwfo Hsz Href Href'.
  apply less_equal_true in Href as [_ Href], Href' as [_ Href'].
  assert (_join close (self, other)
          = (Ok tt, (with_dbm self (CDBM.mk (CDBM.size ds)
                                      (zip_with num_max (CDBM.cells ds) (CDBM.cells dother))),
                     with_dbm other dother))) as ->.
  { unfold _join.
    destruct (decide (CDBM.size (dbm self) ≠ CDBM.size (dbm other))) as [Hne|_]; [contradiction|].
    unfold on_dbm at 1. rewrite Hcs.
    unfold on_dbm at 1. rewrite Hco.
    unfold on_dbm, CDBM.union. simpl.
    rewrite zip_with_dbm_same_size by assumption. reflexivity. }
  simpl.
  split; [reflexivity|]. split; [reflexivity|].
  unfold CDBM.wf in *.
  destruct (zip_max_upper (CDBM.cells ds) (CDBM.cells dother)) as [U1 U2];
    [congruence | assumption | assumption |].
  unfold _less_equal, CDBM.values, with_dbm, dbm in *. simpl in *.
  destruct (decide (CDBM.size ds ≠ CDBM.size ds)) as [Hne|_]; [contradiction|].
  destruct (decide (CDBM.size dother ≠ CDBM.size ds)) as [Hne|_]; [congruence|].
  simpl. rewrite U1, U2. auto.
Qed.

(** ** The further properties on concrete inputs *)

(** A variable no octagon above tracks, and more right-hand sides:
    [x - 1], [3 - (-y)], [x * 2], [3 + 4] and [y + 1]. *)
Definition z : VariableIdentifier := mkVar TInt "z".

Definition x_minus_one : Expression :=
  BinaryArithmeticOperation (Variable_ x) BSub (Literal TInt "1").

Definition three_minus_neg_y : Expression :=
  BinaryArithmeticOperation (Literal TInt "3") BSub (UnaryArithmeticOperation Sub (Variable_ y)).

Definition x_times_two : Expression :=
  BinaryArithmeticOperation (Variable_ x) BMult (Literal TInt "2").

Definition three_plus_four : Expression :=
  BinaryArithmeticOperation (Literal TInt "3") BAdd (Literal TInt "4").

Definition y_plus_one : Expression :=
  BinaryArithmeticOperation (Variable_ y) BAdd (Literal TInt "1").

(** [top()] on the octagon that holds [y - x <= 5]. *)
Lemma top_sets_every_entry_witness :
  CDBM.wf (dbm octagon_xy_binary) /\
  top octagon_xy_binary = (Ok tt, with_dbm octagon_xy_binary (CDBM.mk 4 (replicate 16 inf))).
Proof.
  split; [reflexivity|].
  apply (top_sets_every_entry octagon_xy_binary). reflexivity.
Defined.

(** Three steps of the tightening sequence, compared. *)
Lemma less_equal_transitive_witness :
  _less_equal (tightening_sequence 1) (tightening_sequence 2) = (Ok true, tightening_sequence 2) /\
  _less_equal (tightening_sequence 0) (tightening_sequence 1) = (Ok true, tightening_sequence 1) /\
  _less_equal (tightening_sequence 0) (tightening_sequence 2) = (Ok true, tightening_sequence 2).
Proof.
  split; [apply tightening_sequence_tightens|].
  split; [apply tightening_sequence_tightens|].
  apply (less_equal_transitive (tightening_sequence 2) (tightening_sequence 1) (tightening_sequence 0));
    try reflexivity; apply tightening_sequence_tightens.
Defined.

(** Widening the bounds [-1] by the looser bounds [0]. *)
Lemma widening_upper_bound_witness :
  fst (_widening (tightening_sequence 0) (tightening_sequence 1)) = Ok tt /\
  CDBM.cells (dbm (snd (_widening (tightening_sequence 0) (tightening_sequence 1))))
  = [int 0; inf; inf; int 0] /\
  _less_equal (snd (_widening (tightening_sequence 0) (tightening_sequence 1)))
              (tightening_sequence 0)
  = (Ok true, tightening_sequence 0).
Proof.
  destruct (widening_upper_bound (tightening_sequence 1) (tightening_sequence 0))
    as (H1 & H2 & H3); try reflexivity.
  split; [exact H1|]. split; [reflexivity | exact H3].
Defined.

Lemma widening_only_loosens_witness :
  CDBM.get (dbm (tightening_sequence 1)) 0 1 = Ok (int (-1)) /\
  (CDBM.get (dbm (snd (_widening (tightening_sequence 0) (tightening_sequence 1)))) 0 1
   = Ok (int (-1)) \/
   CDBM.get (dbm (snd (_widening (tightening_sequence 0) (tightening_sequence 1)))) 0 1
   = Ok inf).
Proof.
  split; [reflexivity|].
  apply (widening_only_loosens (tightening_sequence 1) (tightening_sequence 0) 0 1 (int (-1)));
    reflexivity.
Defined.

(** [self[x, PLUS] = inf] when adding to [x] hands back [x]: the
    constraint at position [(2, 0)] goes, the one at [(1, 3)] stays. *)
Lemma setitem_two_writes_row_and_column_witness :
  _var_to_index octagon_xy_binary !! x = Some 0 /\
  fst (__setitem__ same__add__ (Index2 x PLUS) inf octagon_xy_binary) = Ok tt /\
  CDBM.get (dbm (snd (__setitem__ same__add__ (Index2 x PLUS) inf octagon_xy_binary))) 2 0 = Ok inf /\
  CDBM.get (dbm (snd (__setitem__ same__add__ (Index2 x PLUS) inf octagon_xy_binary))) 1 3
  = Ok (int 5).
Proof.
  split; [reflexivity|].
  destruct (setitem_two_writes_row_and_column same__add__ x x PLUS inf 0 octagon_xy_binary)
    as [Hok Hget]; try reflexivity; [simpl; lia|].
  split; [exact Hok|].
  split; [rewrite Hget by (simpl; lia); reflexivity | rewrite Hget by (simpl; lia); reflexivity].
Defined.

(** [self[z, PLUS] = inf] for a variable the octagon does not track. *)
Lemma setitem_two_unknown_key_witness :
  _var_to_index octagon_xy_binary !! z = None /\
  __setitem__ same__add__ (Index2 z PLUS) inf octagon_xy_binary = (Raise KeyError, octagon_xy_binary) /\
  __setitem__ no__add__ (Index2 x PLUS) inf octagon_xy_binary = (Raise TypeError, octagon_xy_binary).
Proof.
  split; [reflexivity|].
  destruct (setitem_two_unknown_key same__add__ z PLUS inf octagon_xy_binary) as [Hkey _].
  destruct (setitem_two_unknown_key no__add__ x PLUS inf octagon_xy_binary) as [_ Hraise].
  split; [apply (Hkey (Some z)); reflexivity | apply Hraise; reflexivity].
Defined.

(** The form of [x - 1]. *)
Lemma linear_form_variable_first_witness :
  SingleVarLinearForm_init evaluate_spec x_minus_one
  = Ok (mkForm PLUS (Some x) (Some (IntervalLattice.negate (IntervalLattice.mk (int 1) (int 1))))).
Proof.
  apply (linear_form_variable_first evaluate_spec (Variable_ x) (Literal TInt "1") BSub
           MINUS PLUS x (IntervalLattice.mk (int 1) (int 1))); reflexivity.
Defined.

(** The form of [3 - (-y)]. *)
Lemma linear_form_interval_first_witness :
  SingleVarLinearForm_init evaluate_spec three_minus_neg_y
  = Ok (mkForm PLUS (Some y) (Some (IntervalLattice.mk (int 3) (int 3)))).
Proof.
  apply (linear_form_interval_first evaluate_spec (Literal TInt "3")
           (UnaryArithmeticOperation Sub (Variable_ y)) BSub MINUS MINUS y
           (IntervalLattice.mk (int 3) (int 3))); try reflexivity.
  intros e He. vm_compute in He. congruence.
Defined.

(** [x * 2] has no form. *)
Lemma linear_form_other_operator_witness :
  exists e, SingleVarLinearForm_init evaluate_spec x_times_two = Raise e.
Proof.
  apply (linear_form_other_operator evaluate_spec (Variable_ x) (Literal TInt "2") BMult).
  reflexivity.
Defined.

(** [3 + 4] and [x + y] have no form. *)
Lemma linear_form_second_contribution_witness :
  SingleVarLinearForm_init evaluate_spec three_plus_four = Raise ValueError /\
  SingleVarLinearForm_init evaluate_spec x_plus_y = Raise ValueError.
Proof.
  split.
  - apply (proj1 (linear_form_second_contribution evaluate_spec (Literal TInt "3")
                    (Literal TInt "4") BAdd)
             (IntervalLattice.mk (int 3) (int 3)) (IntervalLattice.mk (int 4) (int 4)));
      reflexivity.
  - apply (proj2 (linear_form_second_contribution evaluate_spec (Variable_ x) (Variable_ y) BAdd)
             (PLUS, x) (PLUS, y)); reflexivity.
Defined.

(** The fields of the form of [x + 1]. *)
Lemma linear_form_fields_witness :
  SingleVarLinearForm_init evaluate_spec x_plus_one
  = Ok (mkForm PLUS (Some x) (Some (IntervalLattice.mk (int 1) (int 1)))) /\
  (is_Some (Some x) \/ is_Some (Some (IntervalLattice.mk (int 1) (int 1)))).
Proof.
  split; [reflexivity|].
  apply (linear_form_fields evaluate_spec x_plus_one
           (mkForm PLUS (Some x) (Some (IntervalLattice.mk (int 1) (int 1)))) eq_refl).
Defined.

(** [x = y + 1] changes nothing. *)
Lemma assign_unhandled_forms_are_no_ops_witness :
  SingleVarLinearForm_init evaluate_spec y_plus_one
  = Ok (mkForm PLUS (Some y) (Some (IntervalLattice.mk (int 1) (int 1)))) /\
  _assign_variable same__add__ CDBM.close_spec evaluate_spec (Variable_ x) y_plus_one
    octagon_xy_binary
  = (Ok [], octagon_xy_binary).
Proof.
  split; [reflexivity|].
  apply (assign_unhandled_forms_are_no_ops same__add__ CDBM.close_spec evaluate_spec x y
           y_plus_one (mkForm PLUS (Some y) (Some (IntervalLattice.mk (int 1) (int 1))))
           octagon_xy_binary); try reflexivity.
  left. discriminate.
Defined.

(** The meet of the bounds [-1] and [0]. *)
Lemma meet_lower_bound_witness :
  fst (_meet (tightening_sequence 0) (tightening_sequence 1)) = Ok tt /\
  fst (_less_equal (tightening_sequence 1)
         (snd (_meet (tightening_sequence 0) (tightening_sequence 1)))) = Ok true /\
  fst (_less_equal (tightening_sequence 0)
         (snd (_meet (tightening_sequence 0) (tightening_sequence 1)))) = Ok true.
Proof.
  apply (meet_lower_bound (tightening_sequence 1) (tightening_sequence 0)); reflexivity.
Defined.

(** The join of the octagon that holds [y - x <= 5] with the unconstrained
    one: both are closed already, and the result holds no constraint. *)
Lemma join_upper_bound_witness :
  CDBM.close_spec (dbm octagon_xy_binary) = (Ok tt, dbm octagon_xy_binary) /\
  CDBM.close_spec (dbm octagon_xy) = (Ok tt, dbm octagon_xy) /\
  fst (_join CDBM.close_spec (octagon_xy_binary, octagon_xy)) = Ok tt /\
  snd (snd (_join CDBM.close_spec (octagon_xy_binary, octagon_xy))) = octagon_xy /\
  fst (_less_equal (fst (snd (_join CDBM.close_spec (octagon_xy_binary, octagon_xy))))
         octagon_xy_binary) = Ok true.
Proof.
  split; [vm_compute; reflexivity|]. split; [vm_compute; reflexivity|].
  destruct (join_upper_bound CDBM.close_spec octagon_xy_binary octagon_xy
              (dbm octagon_xy_binary) (dbm octagon_xy))
    as (H1 & H2 & H3 & _); try (vm_compute; reflexivity).
  split; [exact H1|]. split; [exact H2 | exact H3].
Defined.
